(** * stock-news-discord: a shallow embedding of [stock_news_discord.py]

    The program is a linear batch job: fetch Korean stock news from a news
    API, translate titles and descriptions to English and Simplified
    Chinese, build one multilingual digest, and post it to a Discord
    webhook in chunks.

    Modelling choices.
    - A Python [str] is a sequence of Unicode code points: [str := list N].
      [len] is [length]; the literals of the source are written as UTF-8
      string literals and decoded to code points by [u].
    - The outside world (news API, translation service, webhook) is a
      record of oracles that answer a request given the history of events
      so far; every call the program makes is recorded in that history.
    - Python exceptions are the [Raise] outcome of a small state-and-error
      monad over the history.  The translation call may raise any
      [Exception]; transport failures of [requests] (connection errors,
      undecodable JSON) and asynchronous interrupts are outside the model:
      an HTTP request always yields a response.
    - The f-strings of [build_message] have a backslash inside a replacement
      field, which Python accepts from 3.12 on; they are given that
      meaning. *)

From Stdlib Require Import String Ascii DecimalString.
From Stdlib Require Import List NArith ZArith Arith Bool Lia.
Import ListNotations.

(** ** Python strings *)

Module PyStr.

Definition char := N.
Definition str := list char.

(** UTF-8 decoding of a literal, so that the literals below can be read
    against the source file.  [need] counts the continuation bytes still
    expected, [acc] holds the bits gathered so far. *)
Fixpoint utf8_decode (bs : list N) (need : nat) (acc : N) : str :=
  match bs with
  | [] => []
  | b :: r =>
      match need with
      | O =>
          if (b <? 128)%N then b :: utf8_decode r 0 0%N
          else if (b <? 224)%N then utf8_decode r 1 (b - 192)%N
          else if (b <? 240)%N then utf8_decode r 2 (b - 224)%N
          else utf8_decode r 3 (b - 240)%N
      | S O => (acc * 64 + (b - 128))%N :: utf8_decode r 0 0%N
      | S k => utf8_decode r k (acc * 64 + (b - 128))%N
      end
  end.

Definition u (s : string) : str :=
  utf8_decode (map N_of_ascii (list_ascii_of_string s)) 0 0%N.

Definition NL : char := 10%N.
Definition SP : char := 32%N.

(** [str.isspace] on one character (CPython's [_PyUnicode_IsWhitespace]). *)
Definition isspace (c : char) : bool :=
  ((9 <=? c) && (c <=? 13) || (28 <=? c) && (c <=? 32)
   || (c =? 133) || (c =? 160) || (c =? 5760)
   || (8192 <=? c) && (c <=? 8202)
   || (c =? 8232) || (c =? 8233) || (c =? 8239) || (c =? 8287)
   || (c =? 12288))%N.

Fixpoint lstrip (s : str) : str :=
  match s with
  | [] => []
  | c :: r => if isspace c then lstrip r else s
  end.

Definition rstrip (s : str) : str := rev (lstrip (rev s)).

(** [s.strip()] *)
Definition strip (s : str) : str := rstrip (lstrip s).

(** [s.split("\n")]: never empty, one more piece than there are newlines. *)
Fixpoint split_nl (s : str) : list str :=
  match s with
  | [] => [[]]
  | c :: r =>
      if (c =? NL)%N then [] :: split_nl r
      else match split_nl r with
           | l :: ls => (c :: l) :: ls
           | [] => [[c]]
           end
  end.

(** ["\n".join(lines)] *)
Fixpoint join_nl (lines : list str) : str :=
  match lines with
  | [] => []
  | [l] => l
  | l :: ls => l ++ NL :: join_nl ls
  end.

(** [s.replace('\n', ' ')] *)
Definition replace_nl_sp (s : str) : str :=
  map (fun c => if (c =? NL)%N then SP else c) s.

(** Truth value of a string: [if s:] *)
Definition truthy (s : str) : bool :=
  match s with [] => false | _ => true end.

(** [str(i)] for a non-negative integer. *)
Definition str_of_nat (i : nat) : str :=
  map N_of_ascii (list_ascii_of_string (NilEmpty.string_of_uint (Nat.to_uint i))).

Fixpoint startswith (p s : str) : bool :=
  match p, s with
  | [], _ => true
  | _ :: _, [] => false
  | a :: p', b :: s' => (a =? b)%N && startswith p' s'
  end.

(** [p in s] *)
Fixpoint contains (p s : str) : bool :=
  startswith p s || match s with [] => false | _ :: s' => contains p s' end.

End PyStr.
Import PyStr.

(** ** The outside world and the effect monad *)

(** Values that reach [print] or a query string. *)
Inductive pyval :=
| VNone
| VStr (s : str)
| VInt (z : Z).

(** An exception object: its class and what [str(e)] gives. *)
Inductive exn_class := RuntimeError | HTTPError | OtherException.

Record exn := mkExn { exn_cls : exn_class; exn_str : str }.

(** Everything the program does to the outside, in the order it does it. *)
Inductive event :=
| EvGet (endpoint : str) (params : list (str * pyval))
| EvTranslate (source target text : str)
| EvPost (endpoint : option str) (content : str)
| EvPrint (args : list pyval).

(** One entry of the ["articles"] array of the news API's JSON answer; a
    missing key and a JSON [null] are both [None]. *)
Record raw_article := mkRaw {
  r_title : option str;
  r_description : option str;
  r_url : option str }.

Record get_reply := mkGetReply {
  g_status_code : Z;
  g_error_text : str;        (* the text [raise_for_status] puts in its HTTPError *)
  d_status : pyval;          (* data.get("status") *)
  d_totalResults : pyval;    (* data.get("totalResults") *)
  d_articles : option (list raw_article) }.

Record post_reply := mkPostReply {
  p_status_code : Z;
  p_text : str }.

Inductive translate_reply :=
| Translated (s : str)
| TranslateRaised (e : exn).

Definition history := list event.

(** The environment variables read at import time and the three services,
    each answering a request given the history so far. *)
Record world := mkWorld {
  NEWS_API_KEY : option str;
  DISCORD_WEBHOOK_URL : option str;
  news_api : history -> str -> list (str * pyval) -> get_reply;
  translator : history -> str -> str -> str -> translate_reply;
  webhook : history -> option str -> str -> post_reply }.

Inductive outcome (A : Type) :=
| Ok (a : A)
| Raise (e : exn).
Arguments Ok {A} a.
Arguments Raise {A} e.

Module Eff.

Definition M (A : Type) := history -> outcome A * history.

Definition ret {A} (a : A) : M A := fun h => (Ok a, h).

Definition bind {A B} (c : M A) (k : A -> M B) : M B :=
  fun h => match c h with
           | (Ok a, h') => k a h'
           | (Raise e, h') => (Raise e, h')
           end.

Definition raise {A} (e : exn) : M A := fun h => (Raise e, h).

(** [try: c  except Exception as e: handler e] *)
Definition try_except {A} (c : M A) (handler : exn -> M A) : M A :=
  fun h => match c h with
           | (Ok a, h') => (Ok a, h')
           | (Raise e, h') => handler e h'
           end.

Definition emit (e : event) : M unit := fun h => (Ok tt, h ++ [e]).

(** [for x in xs: s = body x s] *)
Fixpoint for_each {A S} (xs : list A) (body : A -> S -> M S) (s : S) : M S :=
  match xs with
  | [] => ret s
  | x :: r => bind (body x s) (for_each r body)
  end.

End Eff.
Import Eff.

Notation "x <- c ;; k" := (bind c (fun x => k))
  (at level 61, c at next level, right associativity).
Notation "c ;; k" := (bind c (fun _ => k))
  (at level 61, right associativity).

(** [if not v] for an environment variable: unset or empty. *)
Definition unset (v : option str) : bool :=
  match v with
  | Some (_ :: _) => false
  | _ => true
  end.

Definition env_val (v : option str) : pyval :=
  match v with Some s => VStr s | None => VNone end.

(** [x or ""] *)
Definition or_empty (x : option str) : str :=
  match x with Some s => s | None => [] end.

Definition print (args : list pyval) : M unit := emit (EvPrint args).

Definition requests_get (w : world) (endpoint : str) (params : list (str * pyval))
  : M get_reply :=
  fun h => (Ok (news_api w h endpoint params), h ++ [EvGet endpoint params]).

Definition requests_post (w : world) (endpoint : option str) (content : str)
  : M post_reply :=
  fun h => (Ok (webhook w h endpoint content), h ++ [EvPost endpoint content]).

(** [GoogleTranslator(source=..., target=...).translate(text)] *)
Definition GoogleTranslator_translate (w : world) (source target text : str)
  : M str :=
  fun h => match translator w h source target text with
           | Translated s => (Ok s, h ++ [EvTranslate source target text])
           | TranslateRaised e => (Raise e, h ++ [EvTranslate source target text])
           end.

(** [resp.raise_for_status()] *)
Definition raise_for_status (resp : get_reply) : M unit :=
  if ((400 <=? g_status_code resp) && (g_status_code resp <? 600))%Z
  then raise (mkExn HTTPError (g_error_text resp))
  else ret tt.

(** ** The program *)

(** An article as the fetcher builds it: a dict with the keys
    ["title"], ["description"] and ["url"]. *)
Record article := mkArticle {
  title : str;
  description : str;
  url : str }.

Definition TOP_N : Z := 5.

(** *** News fetcher *)

(** Body of the [for a in articles] loop. *)
Definition fetch_body (news_list : list article) (a : raw_article) : list article :=
  let title := strip (or_empty (r_title a)) in
  let desc := or_empty (r_description a) in
  let url := or_empty (r_url a) in
  if negb (truthy title) then news_list
  else news_list ++ [mkArticle title desc url].

(** The locals [url] and [params] of the fetcher. *)
Definition news_endpoint : str := u "https://newsapi.org/v2/everything".

Definition news_params (w : world) (top_n : Z) : list (str * pyval) :=
  [ (u "apiKey", env_val (NEWS_API_KEY w));
    (u "q", VStr (u "주식 OR 증시 OR 코스피 OR 코스닥 OR 코스피지수 OR 코스닥지수"));
    (u "language", VStr (u "ko"));
    (u "sortBy", VStr (u "publishedAt"));
    (u "pageSize", VInt top_n) ].

Definition fetch_korean_stock_news (w : world) (top_n : Z) : M (list article) :=
  if unset (NEWS_API_KEY w) then
    raise (mkExn RuntimeError (u "환경변수 NEWS_API_KEY 가 설정되어 있지 않습니다."))
  else
    let endpoint := news_endpoint in
    let params := news_params w top_n in
    resp <- requests_get w endpoint params ;;
    raise_for_status resp ;;
    print [VStr (u "NewsAPI 응답 요약:"); d_status resp; d_totalResults resp] ;;
    let articles := match d_articles resp with Some l => l | None => [] end in
    ret (fold_left fetch_body articles []).

(** *** Translator *)

Definition translate_text (w : world) (text target_lang : str) : M str :=
  if negb (truthy text) then ret []
  else
    try_except
      (GoogleTranslator_translate w (u "ko") target_lang text)
      (fun e => print [VStr (u "번역 오류: " ++ exn_str e)] ;; ret text).

(** Body of the [for item in news_list] loop; the state is [translated]. *)
Definition translate_item (w : world) (dest_lang : str) (item : article)
  (translated : list article) : M (list article) :=
  let ko_title := title item in
  let ko_desc := description item in
  t_title <- translate_text w ko_title dest_lang ;;
  t_desc <- (if truthy ko_desc then translate_text w ko_desc dest_lang
             else ret []) ;;
  ret (translated ++ [mkArticle t_title t_desc (url item)]).

Definition translate_news_list (w : world) (news_list : list article) (dest_lang : str)
  : M (list article) :=
  for_each news_list (translate_item w dest_lang) [].

(** *** Message builder *)

(** [enumerate(l, start=start)] *)
Definition enumerate {A} (start : nat) (l : list A) : list (nat * A) :=
  combine (seq start (length l)) l.

(** The [description] shown in a summary line. *)
Definition summary_text (n : article) : str :=
  strip (replace_nl_sp (description n)).

(** Body of the loop over the Korean articles. *)
Definition ko_body (lines : list str) (e : nat * article) : list str :=
  let '(i, n) := e in
  let lines := lines ++ [str_of_nat i ++ u ". " ++ title n] in
  let lines := if truthy (description n)
               then lines ++ [u "   - 요약: " ++ summary_text n] else lines in
  let lines := if truthy (url n)
               then lines ++ [u "   링크: " ++ url n] else lines in
  lines ++ [[]].

(** Body of the loops over the translated articles; [label] is the text
    before the summary. *)
Definition tr_body (label : str) (lines : list str) (e : nat * article) : list str :=
  let '(i, n) := e in
  let lines := lines ++ [str_of_nat i ++ u ". " ++ title n] in
  let lines := if truthy (description n)
               then lines ++ [label ++ summary_text n] else lines in
  lines ++ [[]].

(** The list [lines] when [build_message] reaches its [return]. *)
Definition build_lines (ko_news en_news zh_news : list article) : list str :=
  let lines := [] in
  let lines := lines ++ [u "**오늘의 한국 주식 TOP 5 뉴스**" ++ [NL]] in
  let lines := lines ++ [u "=== 🇰🇷 한국어 ==="] in
  let lines := fold_left ko_body (enumerate 1 ko_news) lines in
  let lines := lines ++ [u "=== 🇺🇸 English ==="] in
  let lines := fold_left (tr_body (u "   - Summary: ")) (enumerate 1 en_news) lines in
  let lines := lines ++ [u "=== 🇨🇳 中文(简体) ==="] in
  let lines := fold_left (tr_body (u "   - 摘要: ")) (enumerate 1 zh_news) lines in
  lines.

Definition build_message (ko_news en_news zh_news : list article) : str :=
  join_nl (build_lines ko_news en_news zh_news).

(** *** Notifier *)

Definition _post_discord (w : world) (content : str) : M unit :=
  resp <- requests_post w (DISCORD_WEBHOOK_URL w) content ;;
  if negb ((p_status_code resp =? 200) || (p_status_code resp =? 204))%Z then
    print [VStr (u "디스코드 전송 실패:"); VInt (p_status_code resp); VStr (p_text resp)]
  else
    print [VStr (u "디스코드 전송 성공")].

Definition max_len : nat := 1900.

(** Body of the [for line in lines] loop; the state is [buffer]. *)
Definition send_body (w : world) (line buffer : str) : M str :=
  if max_len <? length buffer + length line + 1 then
    _post_discord w buffer ;;
    ret (line ++ [NL])
  else
    ret (buffer ++ line ++ [NL]).

Definition send_to_discord (w : world) (message : str) : M unit :=
  if unset (DISCORD_WEBHOOK_URL w) then
    raise (mkExn RuntimeError (u "환경변수 DISCORD_WEBHOOK_URL 이 설정되어 있지 않습니다."))
  else
    let lines := split_nl message in
    buffer <- for_each lines (send_body w) [] ;;
    if truthy (strip buffer) then _post_discord w buffer else ret tt.

(** *** Orchestrator *)

Definition main (w : world) : M unit :=
  print [VStr (u "한국 주식 관련 Top 뉴스 수집 및 디스코드 전송 시작...")] ;;
  ko_news <- fetch_korean_stock_news w TOP_N ;;
  match ko_news with
  | [] => print [VStr (u "뉴스가 없습니다.")]
  | _ :: _ =>
      en_news <- translate_news_list w ko_news (u "en") ;;
      zh_news <- translate_news_list w ko_news (u "chinese (simplified)") ;;
      let message := build_message ko_news en_news zh_news in
      send_to_discord w message ;;
      print [VStr (u "작업 완료")]
  end.

(** ** Vocabulary of the properties *)

(** The contents of the webhook calls recorded in a history, in order. *)
Definition posts (h : history) : list str :=
  flat_map (fun e => match e with EvPost _ c => [c] | _ => [] end) h.

Definition is_translate (e : event) : bool :=
  match e with EvTranslate _ _ _ => true | _ => false end.

Definition is_post (e : event) : bool :=
  match e with EvPost _ _ => true | _ => false end.

Definition is_get (e : event) : bool :=
  match e with EvGet _ _ => true | _ => false end.

(** A network call of any kind. *)
Definition is_network (e : event) : bool :=
  is_get e || is_translate e || is_post e.

(** Blank: empty or made of whitespace only. *)
Definition blank (s : str) : bool := forallb isspace s.

(** A run of lines, each written out with its newline. *)
Definition render (g : list str) : str :=
  concat (map (fun l => l ++ [NL]) g).

(** The lines a delivered chunk is made of. *)
Definition chunk_lines (c : str) : list str := removelast (split_nl c).

(** The article the fetcher makes of a raw one it keeps. *)
Definition clean (a : raw_article) : article :=
  mkArticle (strip (or_empty (r_title a))) (or_empty (r_description a))
            (or_empty (r_url a)).

Definition blank_title (a : raw_article) : bool := blank (or_empty (r_title a)).

(** [raise_for_status] lets the answer through. *)
Definition http_ok (r : get_reply) : bool :=
  negb ((400 <=? g_status_code r) && (g_status_code r <? 600))%Z.

(** [data.get("articles", [])] *)
Definition articles_of (r : get_reply) : list raw_article :=
  match d_articles r with Some l => l | None => [] end.

(** The answer the fetcher gets when it runs after history [h]. *)
Definition news_reply (w : world) (top_n : Z) (h : history) : get_reply :=
  news_api w h news_endpoint (news_params w top_n).

(** The candidates the fetcher keeps, as it returns them. *)
Definition kept (candidates : list raw_article) : list article :=
  map clean (filter (fun a => negb (blank_title a)) candidates).

(** The loop of [send_to_discord] without its effects: the buffers flushed
    inside the loop and the buffer left at its end. *)
Fixpoint chunk_loop (lines : list str) (buffer : str) : list str * str :=
  match lines with
  | [] => ([], buffer)
  | line :: r =>
      if max_len <? length buffer + length line + 1 then
        let '(fl, b) := chunk_loop r (line ++ [NL]) in (buffer :: fl, b)
      else chunk_loop r (buffer ++ line ++ [NL])
  end.

Definition send_chunks (message : str) : list str :=
  let '(fl, b) := chunk_loop (split_nl message) [] in
  fl ++ (if truthy (strip b) then [b] else []).

(** How one output article relates to the input article it is made from. *)
Definition translation_of (w : world) (lang : str) (a b : article) : Prop :=
  url b = url a /\
  (exists h1 h2, translate_text w (title a) lang h1 = (Ok (title b), h2)) /\
  (if truthy (description a)
   then exists h1 h2, translate_text w (description a) lang h1 = (Ok (description b), h2)
   else description b = []).

(** Lines of the digest by their role. *)
Definition is_summary_line (l : str) : bool := startswith (u "   - ") l.
Definition is_link_line (l : str) : bool := startswith (u "   링크: ") l.

(** Concrete worlds and inputs used to exercise the statements. *)
Module Samples.

Definition raw1 : raw_article :=
  mkRaw (Some (u " 코스피 상승 ")) (Some (u "코스피가 2% 올랐다")) (Some (u "http://x/1")).
Definition raw_blank : raw_article := mkRaw (Some (u "   ")) (Some (u "d")) None.
Definition raw_null : raw_article := mkRaw None None None.

Definition ok_reply (l : list raw_article) : get_reply :=
  mkGetReply 200 [] (VStr (u "ok")) (VInt (Z.of_nat (length l))) (Some l).

(** Both credentials set, the API answers with [l], translation prefixes
    the target language, the webhook accepts. *)
Definition world_ok (l : list raw_article) : world :=
  mkWorld (Some (u "k3y")) (Some (u "https://discord.test/hook"))
          (fun _ _ _ => ok_reply l)
          (fun _ _ tgt text => Translated (tgt ++ u ":" ++ text))
          (fun _ _ _ => mkPostReply 204 []).

(** As [world_ok], with a translation service that always raises. *)
Definition world_tr_down : world :=
  mkWorld (Some (u "k3y")) (Some (u "https://discord.test/hook"))
          (fun _ _ _ => ok_reply [raw1])
          (fun _ _ _ _ => TranslateRaised (mkExn OtherException (u "timeout")))
          (fun _ _ _ => mkPostReply 204 []).

(** No credential at all. *)
Definition world_unconfigured : world :=
  mkWorld None (Some [])
          (fun _ _ _ => ok_reply [raw1])
          (fun _ _ _ text => Translated text)
          (fun _ _ _ => mkPostReply 204 []).

(** Twenty lines of 99 letters and a last short line: 2003 characters. *)
Definition long_message : str :=
  concat (repeat (repeat 97%N 99 ++ [NL]) 20) ++ u "end".

Definition long_word : str := repeat 97%N 1901.

Definition art1 : article := mkArticle (u "코스피 상승") (u "코스피가 2% 올랐다") (u "http://x/1").
Definition art_bare : article := mkArticle (u "title") [] [].

End Samples.

(** ** Vocabulary of the further properties *)

(** The two progress lines of [main]. *)
Definition start_line : event :=
  EvPrint [VStr (u "한국 주식 관련 Top 뉴스 수집 및 디스코드 전송 시작...")].


(** The fetcher's request and its summary line for a given answer. *)
Definition get_event (w : world) (top_n : Z) : event :=
  EvGet news_endpoint (news_params w top_n).


(** No whitespace at either end. *)
Definition stripped (s : str) : Prop :=
  match s with
  | [] => True
  | c :: _ => isspace c = false /\ isspace (last s c) = false
  end.

(** The translation requests a list of articles calls for, in order: per
    article the title, then the description, each only when non-empty. *)
Definition expected_requests (lang : str) (news : list article) : history :=
  flat_map
    (fun a =>
       (if truthy (title a) then [EvTranslate (u "ko") lang (title a)] else [])
       ++ (if truthy (description a) then [EvTranslate (u "ko") lang (description a)]
           else []))
    news.

(** A translation service that raises whatever it is asked. *)
Definition translator_down (w : world) : Prop :=
  forall h source target text, exists e,
    translator w h source target text = TranslateRaised e.



Definition no_newline (s : str) : Prop := ~ In NL s.

(** Further worlds and inputs. *)
Module Cases.

(** The news API answers 500. *)
Definition world_api_down : world :=
  mkWorld (Some (u "k3y")) (Some (u "https://discord.test/hook"))
          (fun _ _ _ => mkGetReply 500 (u "500 Server Error") VNone VNone None)
          (fun _ _ _ text => Translated text)
          (fun _ _ _ => mkPostReply 204 []).

(** Webhook configured, news-API key absent. *)
Definition world_no_key : world :=
  mkWorld None (Some (u "https://discord.test/hook"))
          (fun _ _ _ => Samples.ok_reply [Samples.raw1])
          (fun _ _ _ text => Translated text)
          (fun _ _ _ => mkPostReply 204 []).



(** A description made of whitespace only. *)
Definition art_blank_desc : article :=
  mkArticle (u "title") (u "  " ++ [NL]) [].

End Cases.

(** ** Literals and string operations on samples *)

Example u_hangul : u "환경" = [54872; 44221]%N.
Proof. reflexivity. Qed.

Example u_flag : u "=== 🇰🇷 한국어 ===" =
  [61; 61; 61; 32; 127472; 127479; 32; 54620; 44397; 50612; 32; 61; 61; 61]%N.
Proof. reflexivity. Qed.

Example str_of_nat_12 : str_of_nat 12 = u "12".
Proof. reflexivity. Qed.

Example split_nl_ex : split_nl (u "a" ++ NL :: u "b" ++ [NL]) = [u "a"; u "b"; []].
Proof. reflexivity. Qed.

(** ** Translator *)

Section Translator.

Variable w : world.

(** C4: [translate_text] on the empty string returns the empty string and
    leaves the history as it found it: the translation service is not
    called, whatever the target language and whatever happened before. *)
Theorem translate_text_empty (target_lang : str) (h : history) :
  translate_text w [] target_lang h = (Ok [], h).
Proof. reflexivity. Qed.

(** Exactly one call per non-empty text, and never an exception. *)
Lemma translate_text_run (text target_lang : str) (h : history) :
  truthy text = true ->
  exists s evs,
    translate_text w text target_lang h =
      (Ok s, h ++ EvTranslate (u "ko") target_lang text :: evs)
    /\ Forall (fun e => is_network e = false) evs.
Proof.
  intros Ht. unfold translate_text. rewrite Ht. cbn [negb].
  unfold try_except, GoogleTranslator_translate.
  destruct (translator w h (u "ko") target_lang text) as [s | e].
  - exists s, []. split; [reflexivity | constructor].
  - exists text, [EvPrint [VStr (u "번역 오류: " ++ exn_str e)]].
    unfold bind, print, emit, ret. rewrite <- app_assoc. split; [reflexivity|].
    repeat constructor.
Qed.

Lemma translate_text_total (text target_lang : str) (h : history) :
  exists s h', translate_text w text target_lang h = (Ok s, h').
Proof.
  destruct text as [| c r].
  - exists [], h. reflexivity.
  - destruct (translate_text_run (c :: r) target_lang h eq_refl) as (s & evs & E & _).
    eauto.
Qed.

(** C3: when the translation call raises for [text], [translate_text]
    returns [text] itself as a normal result; for a non-empty [text] the
    history grows by the call and one printed diagnostic carrying the
    exception's text. *)
Theorem translate_text_fallback (text target_lang : str) (h : history) (e : exn) :
  translator w h (u "ko") target_lang text = TranslateRaised e ->
  fst (translate_text w text target_lang h) = Ok text /\
  (truthy text = true ->
   snd (translate_text w text target_lang h) =
     h ++ [EvTranslate (u "ko") target_lang text;
           EvPrint [VStr (u "번역 오류: " ++ exn_str e)]]).
Proof.
  intros Hr. destruct text as [| c r].
  - split; [reflexivity | discriminate].
  - unfold translate_text, try_except, GoogleTranslator_translate.
    cbn [truthy negb]. rewrite Hr. unfold bind, print, emit, ret.
    rewrite <- app_assoc. split; [reflexivity | intros _; reflexivity].
Qed.

(** One iteration of the loop of [translate_news_list]. *)
Lemma translate_item_run (lang : str) (item : article) (acc : list article) (h : history) :
  exists b h',
    translate_item w lang item acc h = (Ok (acc ++ [b]), h')
    /\ translation_of w lang item b.
Proof.
  unfold translate_item. cbv zeta. unfold bind at 1.
  destruct (translate_text_total (title item) lang h) as (t & h1 & E1). rewrite E1.
  unfold bind at 1. unfold translation_of.
  destruct (truthy (description item)) eqn:Hd.
  - destruct (translate_text_total (description item) lang h1) as (d & h2 & E2).
    rewrite E2. exists (mkArticle t d (url item)), h2. cbn. eauto 8.
  - exists (mkArticle t [] (url item)), h1. cbn. eauto 8.
Qed.

Lemma translate_loop_run (lang : str) (news acc : list article) (h : history) :
  exists out h',
    for_each news (translate_item w lang) acc h = (Ok (acc ++ out), h')
    /\ Forall2 (translation_of w lang) news out.
Proof.
  revert acc h. induction news as [| item r IH]; intros acc h.
  - exists [], h. rewrite app_nil_r. split; [reflexivity | constructor].
  - cbn [for_each]. unfold bind at 1.
    destruct (translate_item_run lang item acc h) as (b & h1 & E & Hb).
    rewrite E. destruct (IH (acc ++ [b]) h1) as (out & h2 & E2 & Hout).
    exists (b :: out), h2. rewrite E2, <- app_assoc. split; [reflexivity|].
    constructor; assumption.
Qed.

(** C5: [translate_news_list] always returns normally, its result has as
    many entries as its input, the entry at each index is made from the
    input article at that index (title and description through
    [translate_text], the description only when it is non-empty), and the
    urls are those of the input, position by position. *)
Theorem translate_news_list_parallel (news : list article) (lang : str) (h : history) :
  exists out h',
    translate_news_list w news lang h = (Ok out, h')
    /\ length out = length news
    /\ Forall2 (translation_of w lang) news out
    /\ map url out = map url news.
Proof.
  destruct (translate_loop_run lang news [] h) as (out & h' & E & HF).
  exists out, h'. split; [exact E|].
  split; [symmetry; eapply Forall2_length; eassumption|].
  split; [assumption|].
  clear E. induction HF as [| a b l l' (Hu & _) _ IH]; cbn; congruence.
Qed.

End Translator.

Lemma translate_text_fallback_witness :
  fst (translate_text Samples.world_tr_down (u "주식") (u "en") []) = Ok (u "주식") /\
  (truthy (u "주식") = true ->
   snd (translate_text Samples.world_tr_down (u "주식") (u "en") []) =
     [] ++ [EvTranslate (u "ko") (u "en") (u "주식");
            EvPrint [VStr (u "번역 오류: " ++ u "timeout")]]).
Proof.
  apply (translate_text_fallback Samples.world_tr_down (u "주식") (u "en") []
           (mkExn OtherException (u "timeout"))).
  reflexivity.
Defined.

(** ** Credentials *)

(** C7: with the news-API key unset (or empty) the fetcher raises a
    RuntimeError whose text names NEWS_API_KEY, and with the webhook URL
    unset (or empty) the notifier raises one whose text names
    DISCORD_WEBHOOK_URL; in both cases the history is untouched, so no
    request of any kind has been made. *)
Theorem missing_credential_raises (w : world) :
  (unset (NEWS_API_KEY w) = true ->
   forall top_n h, exists msg,
     fetch_korean_stock_news w top_n h = (Raise (mkExn RuntimeError msg), h)
     /\ contains (u "NEWS_API_KEY") msg = true) /\
  (unset (DISCORD_WEBHOOK_URL w) = true ->
   forall message h, exists msg,
     send_to_discord w message h = (Raise (mkExn RuntimeError msg), h)
     /\ contains (u "DISCORD_WEBHOOK_URL") msg = true).
Proof.
  split; intros Hu; intros.
  - unfold fetch_korean_stock_news. rewrite Hu. eexists. split; [reflexivity|].
    vm_compute. reflexivity.
  - unfold send_to_discord. rewrite Hu. eexists. split; [reflexivity|].
    vm_compute. reflexivity.
Qed.

Lemma missing_credential_raises_witness :
  (exists msg,
     fetch_korean_stock_news Samples.world_unconfigured TOP_N []
       = (Raise (mkExn RuntimeError msg), [])
     /\ contains (u "NEWS_API_KEY") msg = true) /\
  (exists msg,
     send_to_discord Samples.world_unconfigured (u "hello") []
       = (Raise (mkExn RuntimeError msg), [])
     /\ contains (u "DISCORD_WEBHOOK_URL") msg = true).
Proof.
  destruct (missing_credential_raises Samples.world_unconfigured) as [Hfetch Hsend].
  split; [apply Hfetch | apply Hsend]; reflexivity.
Defined.

(** ** Whitespace and [strip] *)

Lemma blank_rev (s : str) : blank (rev s) = blank s.
Proof.
  unfold blank. induction s as [| c r IH]; [reflexivity|].
  cbn. rewrite forallb_app, IH. cbn. rewrite andb_true_r. apply andb_comm.
Qed.

Lemma blank_app (s t : str) : blank (s ++ t) = blank s && blank t.
Proof. apply forallb_app. Qed.

Lemma lstrip_nil_iff (s : str) : lstrip s = [] <-> blank s = true.
Proof.
  induction s as [| c r IH]; cbn.
  - tauto.
  - destruct (isspace c); cbn; [exact IH|]. split; discriminate.
Qed.

Lemma lstrip_blank (s : str) : blank (lstrip s) = blank s.
Proof.
  induction s as [| c r IH]; cbn; [reflexivity|].
  destruct (isspace c) eqn:E; cbn; [exact IH | now rewrite E].
Qed.

Lemma strip_nil_iff (s : str) : strip s = [] <-> blank s = true.
Proof.
  unfold strip, rstrip.
  rewrite <- (lstrip_blank s), <- (blank_rev (lstrip s)), <- lstrip_nil_iff.
  split; intros H.
  - apply (f_equal (@rev char)) in H. rewrite rev_involutive in H. exact H.
  - rewrite H. reflexivity.
Qed.

Lemma truthy_strip (s : str) : truthy (strip s) = negb (blank s).
Proof.
  destruct (blank s) eqn:E.
  - apply strip_nil_iff in E. rewrite E. reflexivity.
  - destruct (strip s) eqn:Es; [|reflexivity].
    apply strip_nil_iff in Es. congruence.
Qed.

(** ** News fetcher *)

Lemma fetch_body_fold (articles : list raw_article) (acc : list article) :
  fold_left fetch_body articles acc =
  acc ++ map clean (filter (fun a => negb (blank_title a)) articles).
Proof.
  revert acc. induction articles as [| a r IH]; intros acc; cbn.
  - now rewrite app_nil_r.
  - rewrite IH. unfold fetch_body at 1, blank_title at 2.
    rewrite truthy_strip, negb_involutive.
    destruct (blank (or_empty (r_title a))); cbn; [reflexivity|].
    now rewrite <- app_assoc.
Qed.

(** What a run of the fetcher is, whenever the key is set: one GET, then
    either the HTTPError of [raise_for_status] or one printed summary and
    the kept articles. *)
Lemma fetch_run (w : world) (top_n : Z) (h : history) :
  unset (NEWS_API_KEY w) = false ->
  let resp := news_reply w top_n h in
  fetch_korean_stock_news w top_n h =
    if http_ok resp then
      (Ok (kept (articles_of resp)),
       h ++ [EvGet news_endpoint (news_params w top_n);
             EvPrint [VStr (u "NewsAPI 응답 요약:"); d_status resp; d_totalResults resp]])
    else (Raise (mkExn HTTPError (g_error_text resp)),
          h ++ [EvGet news_endpoint (news_params w top_n)]).
Proof.
  intros Hk resp. unfold fetch_korean_stock_news. rewrite Hk. cbv zeta.
  unfold bind at 1, requests_get at 1. fold (news_reply w top_n h). fold resp.
  unfold bind at 1, raise_for_status, http_ok.
  destruct ((400 <=? g_status_code resp) && (g_status_code resp <? 600))%Z; cbn [negb].
  - reflexivity.
  - unfold ret at 1, bind, print, emit, ret. rewrite fetch_body_fold, <- app_assoc.
    reflexivity.
Qed.

(** C6: with the key set and a successful HTTP status the fetcher returns
    normally; the list it returns is made of exactly the candidates whose
    title is not blank (missing, empty and whitespace-only ones are
    dropped), in the endpoint's order, each with its title stripped; every
    returned title is non-empty; and the fetcher's own events contain no
    translation call. *)
Theorem fetch_drops_blank_titles (w : world) (top_n : Z) (h : history) :
  unset (NEWS_API_KEY w) = false ->
  http_ok (news_reply w top_n h) = true ->
  exists evs,
    let candidates := articles_of (news_reply w top_n h) in
    let news := kept candidates in
    fetch_korean_stock_news w top_n h = (Ok news, h ++ evs)
    /\ Forall (fun n => title n <> []) news
    /\ Forall (fun e => is_translate e = false) evs.
Proof.
  intros Hk Hok. pose proof (fetch_run w top_n h Hk) as E.
  cbv zeta in E. rewrite Hok in E.
  eexists. cbv zeta. split; [exact E|]. split.
  - apply Forall_forall. intros n Hn. apply in_map_iff in Hn.
    destruct Hn as (a & <- & Ha). apply filter_In in Ha. destruct Ha as [_ Hb].
    cbn. intros Hs. apply strip_nil_iff in Hs. unfold blank_title in Hb.
    rewrite Hs in Hb. discriminate.
  - repeat constructor.
Qed.

Lemma fetch_drops_blank_titles_witness :
  exists evs,
    let w := Samples.world_ok [Samples.raw1; Samples.raw_blank; Samples.raw_null] in
    let candidates := articles_of (news_reply w TOP_N []) in
    let news := kept candidates in
    fetch_korean_stock_news w TOP_N [] = (Ok news, [] ++ evs)
    /\ Forall (fun n => title n <> []) news
    /\ Forall (fun e => is_translate e = false) evs.
Proof.
  apply (fetch_drops_blank_titles
           (Samples.world_ok [Samples.raw1; Samples.raw_blank; Samples.raw_null])
           TOP_N []); reflexivity.
Defined.

Example fetch_sample :
  fst (fetch_korean_stock_news
         (Samples.world_ok [Samples.raw1; Samples.raw_blank; Samples.raw_null]) TOP_N [])
  = Ok [Samples.art1].
Proof. vm_compute. reflexivity. Qed.

(** ** Orchestrator *)

(** C8: when the fetch step returns no article, [main] returns normally
    and its whole run is four events: the start line, the fetcher's GET,
    the fetcher's summary line and the "no news" line.  So it makes no
    translation call and no webhook call, and nothing follows the log
    line: no digest is built or sent. *)
Theorem main_no_articles (w : world) (h h1 : history) :
  fetch_korean_stock_news w TOP_N
    (h ++ [EvPrint [VStr (u "한국 주식 관련 Top 뉴스 수집 및 디스코드 전송 시작...")]])
    = (Ok [], h1) ->
  exists summary evs,
    evs = [EvPrint [VStr (u "한국 주식 관련 Top 뉴스 수집 및 디스코드 전송 시작...")];
           EvGet news_endpoint (news_params w TOP_N);
           EvPrint summary;
           EvPrint [VStr (u "뉴스가 없습니다.")]]
    /\ main w h = (Ok tt, h ++ evs)
    /\ Forall (fun e => is_translate e = false /\ is_post e = false) evs
    /\ posts evs = [].
Proof.
  intros Hf.
  destruct (unset (NEWS_API_KEY w)) eqn:Hk.
  { unfold fetch_korean_stock_news in Hf. rewrite Hk in Hf. discriminate. }
  match type of Hf with fetch_korean_stock_news _ _ ?h0 = _ =>
    pose proof (fetch_run w TOP_N h0 Hk) as E end.
  cbv zeta in E. rewrite Hf in E.
  match type of E with context [if ?c then _ else _] => destruct c end;
    [| discriminate].
  injection E as Hnews ->.
  eexists _, _. split; [reflexivity|]. split.
  - unfold main. unfold bind at 1, print at 1, emit at 1.
    unfold bind at 1. rewrite Hf. unfold print, emit.
    rewrite <- !app_assoc. reflexivity.
  - split; [repeat constructor | reflexivity].
Qed.

Lemma main_no_articles_witness :
  let w := Samples.world_ok [Samples.raw_blank; Samples.raw_null] in
  exists summary evs,
    evs = [EvPrint [VStr (u "한국 주식 관련 Top 뉴스 수집 및 디스코드 전송 시작...")];
           EvGet news_endpoint (news_params w TOP_N);
           EvPrint summary;
           EvPrint [VStr (u "뉴스가 없습니다.")]]
    /\ main w [] = (Ok tt, [] ++ evs)
    /\ Forall (fun e => is_translate e = false /\ is_post e = false) evs
    /\ posts evs = [].
Proof.
  intros w.
  apply (main_no_articles w []
           (snd (fetch_korean_stock_news w TOP_N
              ([] ++ [EvPrint [VStr (u "한국 주식 관련 Top 뉴스 수집 및 디스코드 전송 시작...")]])))).
  vm_compute. reflexivity.
Defined.

(** ** Lines *)

Lemma split_nl_nonempty (s : str) : split_nl s <> [].
Proof.
  destruct s as [| c r]; cbn; [discriminate|].
  destruct (c =? NL)%N; [discriminate|].
  destruct (split_nl r); discriminate.
Qed.

Lemma render_cons (l : str) (g : list str) : render (l :: g) = l ++ NL :: render g.
Proof. unfold render. cbn. now rewrite <- app_assoc. Qed.

Lemma render_app (g g' : list str) : render (g ++ g') = render g ++ render g'.
Proof. unfold render. now rewrite map_app, concat_app. Qed.

(** Writing out the lines of a message gives the message and one newline. *)
Lemma render_split_nl (s : str) : render (split_nl s) = s ++ [NL].
Proof.
  induction s as [| c r IH]; [reflexivity|].
  cbn [split_nl]. destruct (N.eqb_spec c NL) as [-> | Hc].
  - rewrite render_cons, IH. reflexivity.
  - destruct (split_nl r) as [| l ls] eqn:E; [now apply split_nl_nonempty in E|].
    rewrite render_cons in *. cbn. now rewrite IH.
Qed.

Lemma split_nl_no_newline (s : str) : Forall (fun l => ~ In NL l) (split_nl s).
Proof.
  induction s as [| c r IH]; cbn [split_nl].
  - constructor; [intros [] | constructor].
  - destruct (N.eqb_spec c NL) as [-> | Hc].
    + constructor; [intros [] | exact IH].
    + destruct (split_nl r) as [| l ls]; [repeat constructor; intros [H | []]; congruence|].
      inversion IH as [| ? ? Hl Hls]; subst.
      constructor; [| exact Hls]. intros [H | H]; [congruence | contradiction].
Qed.

Lemma split_nl_line (l t : str) :
  ~ In NL l -> split_nl (l ++ NL :: t) = l :: split_nl t.
Proof.
  induction l as [| c r IH]; intros Hl; cbn [app split_nl].
  - rewrite N.eqb_refl. reflexivity.
  - destruct (N.eqb_spec c NL) as [-> | Hc]; [exfalso; apply Hl; now left|].
    rewrite IH; [reflexivity|]. intros H. apply Hl. now right.
Qed.

Lemma split_nl_render (g : list str) :
  Forall (fun l => ~ In NL l) g -> split_nl (render g) = g ++ [[]].
Proof.
  induction 1 as [| l g Hl _ IH]; [reflexivity|].
  rewrite render_cons, split_nl_line, IH by assumption. reflexivity.
Qed.

(** A run of newline-free lines is read back from the chunk it makes. *)
Lemma chunk_lines_render (g : list str) :
  Forall (fun l => ~ In NL l) g -> chunk_lines (render g) = g.
Proof.
  intros Hg. unfold chunk_lines. rewrite split_nl_render by assumption.
  apply removelast_last.
Qed.

Lemma blank_render (g : list str) :
  blank (render g) = forallb blank g.
Proof.
  induction g as [| l g IH]; [reflexivity|].
  rewrite render_cons, blank_app. cbn [forallb]. rewrite <- IH.
  unfold blank at 2. cbn [forallb]. reflexivity.
Qed.

(** ** Notifier *)

Lemma posts_app (a b : history) : posts (a ++ b) = posts a ++ posts b.
Proof. apply flat_map_app. Qed.

Section Notifier.

Variable w : world.

Lemma post_run (content : str) (h : history) :
  exists log,
    _post_discord w content h =
      (Ok tt, h ++ [EvPost (DISCORD_WEBHOOK_URL w) content; EvPrint log]).
Proof.
  unfold _post_discord, bind, requests_post.
  destruct (negb _); eexists; unfold print, emit; rewrite <- app_assoc; reflexivity.
Qed.

(** The loop posts what [chunk_loop] flushes and ends with its buffer. *)
Lemma send_loop_run (lines : list str) (buffer : str) (h : history) :
  exists evs,
    for_each lines (send_body w) buffer h =
      (Ok (snd (chunk_loop lines buffer)), h ++ evs)
    /\ posts evs = fst (chunk_loop lines buffer).
Proof.
  revert buffer h. induction lines as [| line r IH]; intros buffer h.
  - exists []. rewrite app_nil_r. split; reflexivity.
  - cbn [for_each chunk_loop]. unfold bind at 1, send_body at 1.
    destruct (max_len <? length buffer + length line + 1).
    + destruct (post_run buffer h) as (log & Ep). unfold bind at 1. rewrite Ep.
      unfold ret at 1.
      destruct (IH (line ++ [NL]) (h ++ [EvPost (DISCORD_WEBHOOK_URL w) buffer; EvPrint log]))
        as (evs & E & Hp).
      rewrite E. destruct (chunk_loop r (line ++ [NL])) as [fl b]. cbn [fst snd] in *.
      eexists. rewrite <- app_assoc. split; [reflexivity|].
      rewrite posts_app, Hp. reflexivity.
    + unfold ret at 1. apply IH.
Qed.

(** With the webhook configured, [send_to_discord] returns normally and
    the contents it posts are [send_chunks message]. *)
Lemma send_run (message : str) (h : history) :
  unset (DISCORD_WEBHOOK_URL w) = false ->
  exists evs,
    send_to_discord w message h = (Ok tt, h ++ evs)
    /\ posts evs = send_chunks message.
Proof.
  intros Hu. unfold send_to_discord, send_chunks. rewrite Hu. cbv zeta.
  destruct (send_loop_run (split_nl message) [] h) as (evs & E & Hp).
  unfold bind at 1. rewrite E.
  destruct (chunk_loop (split_nl message) []) as [fl b]. cbn [fst snd] in *.
  destruct (truthy (strip b)).
  - destruct (post_run b (h ++ evs)) as (log & Ep). rewrite Ep.
    eexists. rewrite <- app_assoc. split; [reflexivity|].
    rewrite posts_app, Hp. reflexivity.
  - exists evs. rewrite app_nil_r. split; [reflexivity | exact Hp].
Qed.

End Notifier.

(** *** The chunking loop *)

Lemma last_app_r {A} (x y : list A) (d : A) : y <> [] -> last (x ++ y) d = last y d.
Proof.
  intros Hy. induction x as [| a x IH]; [reflexivity|].
  cbn [app]. destruct (x ++ y) eqn:E.
  - apply app_eq_nil in E. destruct E. contradiction.
  - cbn [last]. exact IH.
Qed.

(** Starting from a buffer that is a run of whole lines, the loop cuts
    the lines into runs: the flushed chunks and the final buffer are runs
    of consecutive lines, in order, and the final buffer is not an empty
    run unless there was no line at all. *)
Lemma chunk_loop_groups (lines g0 : list str) :
  exists gs gl,
    chunk_loop lines (render g0) = (map render gs, render gl)
    /\ concat gs ++ gl = g0 ++ lines
    /\ (g0 ++ lines <> [] -> gl <> []).
Proof.
  revert g0. induction lines as [| line r IH]; intros g0.
  - exists [], g0. rewrite app_nil_r. repeat split. auto.
  - cbn [chunk_loop].
    destruct (max_len <? length (render g0) + length line + 1).
    + destruct (IH [line]) as (gs & gl & E & Hc & Hl).
      replace (render [line]) with (line ++ [NL]) in E
        by (rewrite render_cons; reflexivity).
      rewrite E. exists (g0 :: gs), gl. repeat split.
      * cbn [concat]. rewrite <- app_assoc, Hc. reflexivity.
      * intros _. apply Hl. discriminate.
    + replace (render g0 ++ line ++ [NL]) with (render (g0 ++ [line]))
        by (rewrite render_app, render_cons; reflexivity).
      destruct (IH (g0 ++ [line])) as (gs & gl & E & Hc & Hl).
      rewrite E. exists gs, gl. repeat split.
      * rewrite Hc, <- app_assoc. reflexivity.
      * intros _. apply Hl. rewrite <- app_assoc. now destruct g0.
Qed.

(** The same for a whole message: the chunks flushed in the loop and the
    final buffer are runs of lines whose concatenation is the list of the
    message's lines, and the final run ends with the last line. *)
Lemma chunk_loop_message (message : str) :
  exists gs gl,
    chunk_loop (split_nl message) [] = (map render gs, render (gl ++ [last (split_nl message) []]))
    /\ concat gs ++ gl ++ [last (split_nl message) []] = split_nl message.
Proof.
  destruct (chunk_loop_groups (split_nl message) []) as (gs & gl & E & Hc & Hl).
  cbn [app] in Hc, Hl. specialize (Hl (@split_nl_nonempty message)).
  assert (Hlast : last gl [] = last (split_nl message) [])
    by (rewrite <- Hc; symmetry; now apply last_app_r).
  assert (Hgl : gl = removelast gl ++ [last (split_nl message) []])
    by (rewrite <- Hlast; apply app_removelast_last, Hl).
  exists gs, (removelast gl). rewrite <- Hgl. split; assumption.
Qed.



(** *** What is delivered *)

Section Delivery.

Variable w : world.
Hypothesis webhook_set : unset (DISCORD_WEBHOOK_URL w) = false.


(** C2 (amended): every delivered chunk is a run of whole lines, each
    with its newline; the lines of the delivered chunks, taken in order,
    are the lines of the message up to a run [rest] of blank lines at its
    end that is not delivered; and nothing is left out when the last line
    of the message is not blank. *)
Theorem send_lines_in_order (message : str) (h : history) :
  exists evs rest,
    send_to_discord w message h = (Ok tt, h ++ evs)
    /\ Forall (fun c => c = render (chunk_lines c)) (posts evs)
    /\ concat (map chunk_lines (posts evs)) ++ rest = split_nl message
    /\ Forall (fun l => blank l = true) rest
    /\ (blank (last (split_nl message) []) = false -> rest = []).
Proof.
  destruct (send_run w message h webhook_set) as (evs & E & Hp).
  exists evs. rewrite Hp. unfold send_chunks. clear Hp.
  destruct (chunk_loop_message message) as (gs & gl & Ec & Hc).
  rewrite Ec. set (tl := gl ++ [last (split_nl message) []]) in *.
  pose proof (split_nl_no_newline message) as Hnl. rewrite <- Hc in Hnl.
  apply Forall_app in Hnl. destruct Hnl as [Hgs Htl].
  apply Forall_concat in Hgs.
  assert (Hmap : map chunk_lines (map render gs) = gs).
  { rewrite map_map. rewrite <- (map_id gs) at 2. apply map_ext_in.
    intros g Hg. apply chunk_lines_render.
    rewrite Forall_forall in Hgs. now apply Hgs. }
  assert (Hwhole : Forall (fun c => c = render (chunk_lines c)) (map render gs)).
  { apply Forall_map, Forall_forall. intros g Hg.
    rewrite chunk_lines_render; [reflexivity|].
    rewrite Forall_forall in Hgs. now apply Hgs. }
  rewrite truthy_strip. destruct (blank (render tl)) eqn:Hb; cbn [negb].
  - exists tl. rewrite app_nil_r, Hmap. repeat split; try assumption.
    + rewrite blank_render in Hb. apply Forall_forall. intros l Hl.
      rewrite forallb_forall in Hb. now apply Hb.
    + intros Hlast. rewrite blank_render in Hb. unfold tl in Hb.
      rewrite forallb_app in Hb. cbn [forallb] in Hb. rewrite Hlast in Hb.
      rewrite andb_false_r in Hb. discriminate.
  - exists []. rewrite app_nil_r, map_app, concat_app, Hmap. cbn [map concat].
    rewrite chunk_lines_render, app_nil_r by assumption.
    repeat split; try assumption; [| constructor].
    apply Forall_app. split; [exact Hwhole|].
    constructor; [| constructor]. now rewrite chunk_lines_render.
Qed.

(** C10: when the first line of the message has 1900 characters or more,
    the first webhook call of [send_to_discord] carries the empty
    string. *)
Theorem send_first_chunk_empty (message : str) (h : history) :
  1900 <= length (hd [] (split_nl message)) ->
  exists evs rest,
    send_to_discord w message h = (Ok tt, h ++ evs)
    /\ posts evs = [] :: rest.
Proof.
  intros Hfirst. destruct (send_run w message h webhook_set) as (evs & E & Hp).
  exists evs. rewrite Hp. unfold send_chunks. clear Hp.
  destruct (split_nl message) as [| line r]; [cbn in Hfirst; lia|].
  cbn [hd] in Hfirst. cbn [chunk_loop].
  destruct (Nat.ltb_spec max_len (length (@nil char) + length line + 1)) as [Hlt | Hle].
  - destruct (chunk_loop r (line ++ [NL])) as [fl b]. eexists.
    split; [exact E | reflexivity].
  - unfold max_len in Hle. cbn [length] in Hle. lia.
Qed.

End Delivery.


Example send_long_message_sizes :
  map (@length char)
      (posts (snd (send_to_discord (Samples.world_ok []) Samples.long_message [])))
  = [1900; 104].
Proof. vm_compute. reflexivity. Qed.


Lemma send_lines_in_order_witness :
  exists evs rest,
    send_to_discord (Samples.world_ok []) Samples.long_message [] = (Ok tt, [] ++ evs)
    /\ Forall (fun c => c = render (chunk_lines c)) (posts evs)
    /\ concat (map chunk_lines (posts evs)) ++ rest = split_nl Samples.long_message
    /\ Forall (fun l => blank l = true) rest
    /\ (blank (last (split_nl Samples.long_message) []) = false -> rest = []).
Proof.
  exact (send_lines_in_order (Samples.world_ok []) eq_refl Samples.long_message []).
Defined.

(** C2 as stated fails on a message that is a single space: its one line
    is never delivered, because the remainder is blank. *)
Lemma send_lines_in_order_counterexample :
  posts (snd (send_to_discord (Samples.world_ok []) [SP] [])) = []
  /\ split_nl [SP] = [[SP]]
  /\ concat (map chunk_lines (posts (snd (send_to_discord (Samples.world_ok []) [SP] []))))
     <> split_nl [SP].
Proof.
  repeat split; try (vm_compute; reflexivity). vm_compute. discriminate.
Qed.

Lemma send_first_chunk_empty_witness :
  exists evs rest,
    send_to_discord (Samples.world_ok []) (Samples.long_word ++ NL :: u "tail") []
      = (Ok tt, [] ++ evs)
    /\ posts evs = [] :: rest.
Proof.
  apply (send_first_chunk_empty (Samples.world_ok []) eq_refl
           (Samples.long_word ++ NL :: u "tail") []).
  apply Nat.leb_le. vm_compute. reflexivity.
Defined.

(** ** Message builder *)

Lemma to_little_uint_not_nil (n : nat) (acc : Decimal.uint) :
  acc <> Decimal.Nil -> Nat.to_little_uint n acc <> Decimal.Nil.
Proof.
  revert acc. induction n as [| n IH]; intros acc Hacc; cbn; [exact Hacc|].
  apply IH. destruct acc; cbn; congruence.
Qed.

Lemma revapp_not_nil (d d' : Decimal.uint) :
  d' <> Decimal.Nil -> Decimal.revapp d d' <> Decimal.Nil.
Proof.
  revert d'. induction d; intros d' Hd'; cbn; [exact Hd' | ..]; apply IHd; discriminate.
Qed.

Lemma to_uint_not_nil (n : nat) : Nat.to_uint n <> Decimal.Nil.
Proof.
  unfold Nat.to_uint, Decimal.rev.
  pose proof (to_little_uint_not_nil n Decimal.zero) as H.
  destruct (Nat.to_little_uint n Decimal.zero); cbn;
    [apply H; discriminate | ..]; apply revapp_not_nil; discriminate.
Qed.

(** [str(i)] starts with a decimal digit. *)
Lemma str_of_nat_head (i : nat) :
  exists c r, str_of_nat i = c :: r /\ (48 <= c <= 57)%N.
Proof.
  unfold str_of_nat. pose proof (to_uint_not_nil i) as H.
  destruct (Nat.to_uint i); [congruence | ..]; cbn; eexists _, _;
    (split; [reflexivity | lia]).
Qed.

(** A title line is not indented. *)
Lemma title_line_not_indented (p t : str) (i : nat) :
  startswith (SP :: p) (str_of_nat i ++ t) = false.
Proof.
  destruct (str_of_nat_head i) as (c & r & -> & Hc). cbn [app startswith].
  destruct (N.eqb_spec SP c) as [<- | _]; [unfold SP in Hc; lia | reflexivity].
Qed.

Lemma ko_body_app (lines : list str) (e : nat * article) :
  ko_body lines e = lines ++ ko_body [] e.
Proof.
  destruct e as [i n]. unfold ko_body.
  destruct (truthy (description n)), (truthy (url n)); cbn [app];
    rewrite <- ?app_assoc; reflexivity.
Qed.

Lemma tr_body_app (label : str) (lines : list str) (e : nat * article) :
  tr_body label lines e = lines ++ tr_body label [] e.
Proof.
  destruct e as [i n]. unfold tr_body.
  destruct (truthy (description n)); cbn [app]; rewrite <- ?app_assoc; reflexivity.
Qed.

Lemma fold_left_body {E} (body : list str -> E -> list str) (l : list E) :
  (forall lines e, body lines e = lines ++ body [] e) ->
  forall lines, fold_left body l lines = lines ++ flat_map (body []) l.
Proof.
  intros Happ. induction l as [| e r IH]; intros lines; cbn.
  - now rewrite app_nil_r.
  - rewrite IH, (Happ lines e), <- app_assoc. reflexivity.
Qed.

(** The digest, section by section. *)
Lemma build_lines_sections (ko_news en_news zh_news : list article) :
  build_lines ko_news en_news zh_news =
    [u "**오늘의 한국 주식 TOP 5 뉴스**" ++ [NL]; u "=== 🇰🇷 한국어 ==="]
    ++ flat_map (ko_body []) (enumerate 1 ko_news)
    ++ [u "=== 🇺🇸 English ==="]
    ++ flat_map (tr_body (u "   - Summary: ") []) (enumerate 1 en_news)
    ++ [u "=== 🇨🇳 中文(简体) ==="]
    ++ flat_map (tr_body (u "   - 摘要: ") []) (enumerate 1 zh_news).
Proof.
  unfold build_lines. cbv zeta.
  rewrite !(fold_left_body (tr_body _)) by (intros; apply tr_body_app).
  rewrite (fold_left_body ko_body) by apply ko_body_app.
  cbn [app]. rewrite <- !app_assoc. reflexivity.
Qed.




Lemma tr_body_no_link (label : str) (e : nat * article) :
  (forall s, is_link_line (label ++ s) = false) ->
  Forall (fun l => is_link_line l = false) (tr_body label [] e).
Proof.
  intros Hlabel. destruct e as [i n]. unfold tr_body.
  destruct (truthy (description n)); cbn [app]; repeat constructor;
    try apply title_line_not_indented; apply Hlabel.
Qed.

Lemma tr_section_no_link (label : str) (l : list (nat * article)) :
  (forall s, is_link_line (label ++ s) = false) ->
  Forall (fun l => is_link_line l = false) (flat_map (tr_body label []) l).
Proof.
  intros Hlabel. induction l as [| e r IH]; cbn [flat_map]; [constructor|].
  apply Forall_app. split; [now apply tr_body_no_link | exact IH].
Qed.



(** An article with all three fields gets all three lines in the Korean
    section, and no link line in a translated one. *)
Example ko_body_full :
  ko_body [] (1, Samples.art1) =
    [u "1. 코스피 상승"; u "   - 요약: 코스피가 2% 올랐다"; u "   링크: http://x/1"; []]
  /\ map is_summary_line (ko_body [] (1, Samples.art1)) = [false; true; false; false]
  /\ map is_link_line (ko_body [] (1, Samples.art1)) = [false; false; true; false]
  /\ tr_body (u "   - Summary: ") [] (1, Samples.art1) =
       [u "1. 코스피 상승"; u "   - Summary: 코스피가 2% 올랐다"; []].
Proof. repeat split; vm_compute; reflexivity. Qed.

Example ko_body_bare :
  ko_body [] (3, Samples.art_bare) = [u "3. title"; []].
Proof. vm_compute. reflexivity. Qed.

(** * Further properties *)

(** ** More on [strip] *)

Lemma lstrip_split (s : str) : exists p, s = p ++ lstrip s /\ blank p = true.
Proof.
  induction s as [| c r (p & Hp & Hb)]; [exists []; split; reflexivity|].
  cbn [lstrip]. destruct (isspace c) eqn:Ec.
  - exists (c :: p). split; [cbn [app]; now f_equal|].
    unfold blank in *. cbn [forallb]. now rewrite Ec, Hb.
  - exists []. split; reflexivity.
Qed.

Lemma lstrip_head (s : str) (c : char) (r : str) :
  lstrip s = c :: r -> isspace c = false.
Proof.
  induction s as [| a s IH]; cbn [lstrip]; [discriminate|].
  destruct (isspace a) eqn:Ea; [exact IH|]. intros [= <- _]. exact Ea.
Qed.

Lemma rev_head_last (s : str) (d : char) :
  s <> [] -> rev s = last s d :: rev (removelast s).
Proof.
  intros Hs. rewrite (app_removelast_last d Hs) at 1.
  rewrite rev_app_distr. reflexivity.
Qed.

(** What [strip] returns has no whitespace at either end. *)
Lemma strip_stripped (s : str) : stripped (strip s).
Proof.
  unfold stripped. destruct (strip s) as [| c r] eqn:Es; [exact I|].
  unfold strip, rstrip in Es.
  destruct (lstrip_split (rev (lstrip s))) as (p & Hp & _).
  destruct (lstrip (rev (lstrip s))) as [| x q] eqn:Eq; [discriminate|].
  split.
  - apply (f_equal (@rev char)) in Hp. rewrite rev_involutive, rev_app_distr, Es in Hp.
    cbn [app] in Hp. eapply lstrip_head. exact Hp.
  - rewrite <- Es. cbn [rev]. rewrite last_last. eapply lstrip_head. exact Eq.
Qed.

(** Stripping is idempotent. *)
Lemma strip_strip (s : str) : strip (strip s) = strip s.
Proof.
  pose proof (strip_stripped s) as H. unfold stripped in H.
  destruct (strip s) as [| c r]; [reflexivity|]. destruct H as [Hc Hl].
  unfold strip at 1, rstrip. cbn [lstrip]. rewrite Hc.
  rewrite (rev_head_last (c :: r) c) by discriminate. cbn [lstrip]. rewrite Hl.
  rewrite <- (rev_head_last (c :: r) c) by discriminate. apply rev_involutive.
Qed.

Lemma strip_incl (s : str) (c : char) : In c (strip s) -> In c s.
Proof.
  unfold strip, rstrip. intros H. apply in_rev in H.
  destruct (lstrip_split (rev (lstrip s))) as (p & Hp & _).
  assert (H1 : In c (rev (lstrip s))) by (rewrite Hp; apply in_or_app; now right).
  apply in_rev in H1. destruct (lstrip_split s) as (p' & Hp' & _).
  rewrite Hp'. apply in_or_app. now right.
Qed.

(** ** More on the fetcher *)

(** X1: with the key set, an HTTP status from 400 to 599 makes the fetcher
    raise the HTTPError of [raise_for_status] right after its single GET:
    nothing is printed and no article is returned. *)
Theorem fetch_http_error (w : world) (top_n : Z) (h : history) :
  unset (NEWS_API_KEY w) = false ->
  http_ok (news_reply w top_n h) = false ->
  fetch_korean_stock_news w top_n h =
    (Raise (mkExn HTTPError (g_error_text (news_reply w top_n h))),
     h ++ [get_event w top_n]).
Proof.
  intros Hk Hbad. pose proof (fetch_run w top_n h Hk) as E. cbv zeta in E.
  rewrite Hbad in E. exact E.
Qed.

Lemma fetch_http_error_witness :
  fetch_korean_stock_news Cases.world_api_down TOP_N [] =
    (Raise (mkExn HTTPError (u "500 Server Error")),
     [] ++ [get_event Cases.world_api_down TOP_N]).
Proof.
  apply (fetch_http_error Cases.world_api_down TOP_N []); reflexivity.
Defined.

Lemma kept_length (candidates : list raw_article) :
  length (kept candidates) <= length candidates.
Proof. unfold kept. rewrite length_map. apply filter_length_le. Qed.

(** X2: every title the fetcher returns is the stripped title of a
    candidate: it has no whitespace at either end and stripping it again
    changes nothing; and the fetcher never returns more articles than the
    endpoint sent. *)
Theorem fetch_titles_stripped (w : world) (top_n : Z) (h : history) :
  unset (NEWS_API_KEY w) = false ->
  http_ok (news_reply w top_n h) = true ->
  exists news evs,
    fetch_korean_stock_news w top_n h = (Ok news, h ++ evs)
    /\ length news <= length (articles_of (news_reply w top_n h))
    /\ Forall (fun n => stripped (title n) /\ strip (title n) = title n) news.
Proof.
  intros Hk Hok. pose proof (fetch_run w top_n h Hk) as E. cbv zeta in E.
  rewrite Hok in E. eexists _, _. split; [exact E|]. split; [apply kept_length|].
  unfold kept. apply Forall_map, Forall_forall. intros a _. cbn [title clean].
  split; [apply strip_stripped | apply strip_strip].
Qed.

Lemma fetch_titles_stripped_witness :
  let w := Samples.world_ok [Samples.raw1; Samples.raw_blank; Samples.raw_null] in
  exists news evs,
    fetch_korean_stock_news w TOP_N [] = (Ok news, [] ++ evs)
    /\ length news <= length (articles_of (news_reply w TOP_N []))
    /\ Forall (fun n => stripped (title n) /\ strip (title n) = title n) news.
Proof.
  apply (fetch_titles_stripped
           (Samples.world_ok [Samples.raw1; Samples.raw_blank; Samples.raw_null])
           TOP_N []); reflexivity.
Defined.

(** ** More on the translator *)

Section TranslatorCalls.

Variable w : world.

Lemma translate_text_events (text lang : str) (h : history) :
  exists s evs,
    translate_text w text lang h = (Ok s, h ++ evs)
    /\ filter is_translate evs =
         (if truthy text then [EvTranslate (u "ko") lang text] else [])
    /\ Forall (fun e => is_get e = false /\ is_post e = false) evs.
Proof.
  destruct text as [| c r].
  - exists [], []. rewrite app_nil_r. repeat split. constructor.
  - unfold translate_text, try_except, GoogleTranslator_translate. cbn [truthy negb].
    destruct (translator w h (u "ko") lang (c :: r)) as [s | e].
    + exists s, [EvTranslate (u "ko") lang (c :: r)]. repeat constructor.
    + exists (c :: r), [EvTranslate (u "ko") lang (c :: r);
                        EvPrint [VStr (u "번역 오류: " ++ exn_str e)]].
      unfold bind, print, emit, ret. rewrite <- app_assoc. repeat constructor.
Qed.

Lemma translate_item_events (lang : str) (item : article) (acc : list article)
  (h : history) :
  exists b evs,
    translate_item w lang item acc h = (Ok (acc ++ [b]), h ++ evs)
    /\ filter is_translate evs = expected_requests lang [item]
    /\ Forall (fun e => is_get e = false /\ is_post e = false) evs.
Proof.
  unfold translate_item, expected_requests. cbv zeta. cbn [flat_map].
  rewrite app_nil_r. unfold bind at 1.
  destruct (translate_text_events (title item) lang h) as (t & e1 & E1 & F1 & N1).
  rewrite E1. unfold bind at 1. destruct (truthy (description item)) eqn:Hd.
  - destruct (translate_text_events (description item) lang (h ++ e1))
      as (d & e2 & E2 & F2 & N2).
    rewrite E2, Hd in *. exists (mkArticle t d (url item)), (e1 ++ e2).
    rewrite <- app_assoc, filter_app, F1, F2. repeat split.
    apply Forall_app. now split.
  - exists (mkArticle t [] (url item)), e1. rewrite F1, app_nil_r. now repeat split.
Qed.

Lemma translate_loop_events (lang : str) (news acc : list article) (h : history) :
  exists out evs,
    for_each news (translate_item w lang) acc h = (Ok (acc ++ out), h ++ evs)
    /\ length out = length news
    /\ filter is_translate evs = expected_requests lang news
    /\ Forall (fun e => is_get e = false /\ is_post e = false) evs.
Proof.
  revert acc h. induction news as [| item r IH]; intros acc h.
  - exists [], []. rewrite !app_nil_r. repeat split. constructor.
  - cbn [for_each]. unfold bind at 1.
    destruct (translate_item_events lang item acc h) as (b & e1 & E1 & F1 & N1).
    rewrite E1. destruct (IH (acc ++ [b]) (h ++ e1)) as (out & e2 & E2 & L2 & F2 & N2).
    exists (b :: out), (e1 ++ e2). rewrite E2, <- !app_assoc. split; [reflexivity|].
    split; [cbn; now rewrite L2|]. split.
    + rewrite filter_app, F1, F2. unfold expected_requests. cbn [flat_map].
      now rewrite app_nil_r.
    + apply Forall_app. now split.
Qed.

Lemma expected_requests_length (lang : str) (news : list article) :
  length (expected_requests lang news) <= 2 * length news.
Proof.
  unfold expected_requests. induction news as [| a r IH]; [cbn; lia|].
  cbn [flat_map]. rewrite !length_app. cbn [length].
  destruct (truthy (title a)), (truthy (description a)); cbn [length]; lia.
Qed.

(** X3: the translation requests of [translate_news_list] are, article by
    article and in order, the title and then the description, each only
    when it is non-empty, always from "ko" to the requested language: at
    most two requests per article.  It makes no other network call. *)
Theorem translate_news_list_requests (news : list article) (lang : str) (h : history) :
  exists out evs,
    translate_news_list w news lang h = (Ok out, h ++ evs)
    /\ filter is_translate evs = expected_requests lang news
    /\ length (filter is_translate evs) <= 2 * length news
    /\ Forall (fun e => is_get e = false /\ is_post e = false) evs.
Proof.
  destruct (translate_loop_events lang news [] h) as (out & evs & E & _ & F & N).
  exists out, evs. split; [exact E|]. split; [exact F|]. split; [| exact N].
  rewrite F. apply expected_requests_length.
Qed.

Lemma translate_text_down (text lang : str) (h : history) :
  translator_down w -> exists h', translate_text w text lang h = (Ok text, h').
Proof.
  intros Hdown. destruct text as [| c r]; [eexists; reflexivity|].
  unfold translate_text, try_except, GoogleTranslator_translate. cbn [truthy negb].
  destruct (Hdown h (u "ko") lang (c :: r)) as (e & ->).
  eexists. reflexivity.
Qed.

Lemma translate_loop_down (lang : str) (news acc : list article) (h : history) :
  translator_down w ->
  exists h', for_each news (translate_item w lang) acc h = (Ok (acc ++ news), h').
Proof.
  intros Hdown. revert acc h. induction news as [| item r IH]; intros acc h.
  - exists h. now rewrite app_nil_r.
  - cbn [for_each]. unfold bind at 1, translate_item at 1. cbv zeta. unfold bind at 1.
    destruct (translate_text_down (title item) lang h Hdown) as (h1 & ->).
    unfold bind at 1.
    assert (Hd : exists h2,
               (if truthy (description item)
                then translate_text w (description item) lang else ret []) h1
               = (Ok (description item), h2)).
    { destruct (description item) as [| c d] eqn:Ed; [eexists; reflexivity|].
      cbn [truthy]. apply translate_text_down, Hdown. }
    destruct Hd as (h2 & ->). unfold ret at 1.
    destruct (IH (acc ++ [mkArticle (title item) (description item) (url item)]) h2)
      as (h3 & E3).
    exists h3. rewrite E3, <- app_assoc. now destruct item.
Qed.

(** X4: when the translation service raises on every request,
    [translate_news_list] still returns normally, and what it returns is
    its input list, article for article. *)
Theorem translate_news_list_service_down (news : list article) (lang : str) (h : history) :
  translator_down w ->
  fst (translate_news_list w news lang h) = Ok news.
Proof.
  intros Hdown. destruct (translate_loop_down lang news [] h Hdown) as (h' & E).
  unfold translate_news_list. now rewrite E.
Qed.

End TranslatorCalls.

Lemma translate_news_list_service_down_witness :
  fst (translate_news_list Samples.world_tr_down
         [Samples.art1; Samples.art_bare] (u "en") [])
  = Ok [Samples.art1; Samples.art_bare].
Proof.
  apply (translate_news_list_service_down Samples.world_tr_down
           [Samples.art1; Samples.art_bare] (u "en") []).
  intros h source target text. eexists. reflexivity.
Defined.

Example translate_requests_sample :
  filter is_translate
    (snd (translate_news_list (Samples.world_ok [])
            [Samples.art1; Samples.art_bare] (u "en") []))
  = [EvTranslate (u "ko") (u "en") (u "코스피 상승");
     EvTranslate (u "ko") (u "en") (u "코스피가 2% 올랐다");
     EvTranslate (u "ko") (u "en") (u "title")].
Proof. vm_compute. reflexivity. Qed.

(** ** More on the notifier *)

(** Lines that fit in the buffer together are never flushed in the loop. *)
Lemma chunk_loop_fits (lines : list str) (buffer : str) :
  length buffer + length (render lines) <= max_len ->
  chunk_loop lines buffer = ([], buffer ++ render lines).
Proof.
  revert buffer. induction lines as [| line r IH]; intros buffer Hlen.
  - cbn. now rewrite app_nil_r.
  - rewrite render_cons in *. rewrite length_app in Hlen. cbn [length] in Hlen.
    cbn [chunk_loop].
    destruct (Nat.ltb_spec max_len (length buffer + length line + 1)) as [Hlt | _];
      [lia|].
    rewrite IH.
    + rewrite <- !app_assoc. reflexivity.
    + rewrite !length_app. cbn [length]. lia.
Qed.

Lemma concat_map_render (gs : list (list str)) :
  concat (map render gs) = render (concat gs).
Proof.
  induction gs as [| g gs IH]; [reflexivity|].
  cbn [map concat]. now rewrite render_app, IH.
Qed.

(** Once the buffer is non-empty it stays so, and so is all it flushes. *)
Lemma chunk_loop_nonempty (lines : list str) (buffer : str) :
  buffer <> [] ->
  Forall (fun c => c <> []) (fst (chunk_loop lines buffer))
  /\ snd (chunk_loop lines buffer) <> [].
Proof.
  revert buffer. induction lines as [| line r IH]; intros buffer Hb.
  - split; [constructor | exact Hb].
  - cbn [chunk_loop]. destruct (max_len <? length buffer + length line + 1).
    + destruct (IH (line ++ [NL])) as [Hf Hs]; [now destruct line|].
      destruct (chunk_loop r (line ++ [NL])) as [fl b]. cbn [fst snd] in *.
      split; [constructor; assumption | exact Hs].
    + apply IH. now destruct buffer.
Qed.

(** Every buffer is within the limit or is a single line with its
    newline. *)
Lemma chunk_loop_oversize (all lines : list str) (buffer : str) :
  let fits c := length c <= max_len \/ exists l, In l all /\ c = l ++ [NL] in
  incl lines all -> fits buffer ->
  Forall fits (fst (chunk_loop lines buffer)) /\ fits (snd (chunk_loop lines buffer)).
Proof.
  intros fits. revert buffer. induction lines as [| line r IH]; intros buffer Hin Hb.
  - split; [constructor | exact Hb].
  - assert (Hr : incl r all) by (intros x Hx; apply Hin; now right).
    cbn [chunk_loop].
    destruct (Nat.ltb_spec max_len (length buffer + length line + 1)) as [Hlt | Hle].
    + destruct (IH (line ++ [NL]) Hr) as [Hf Hs].
      { right. exists line. split; [apply Hin; now left | reflexivity]. }
      destruct (chunk_loop r (line ++ [NL])) as [fl b]. cbn [fst snd] in *.
      split; [constructor; assumption | exact Hs].
    + apply (IH _ Hr). left. rewrite !length_app. cbn [length]. lia.
Qed.

Section MoreDelivery.

Variable w : world.
Hypothesis webhook_set : unset (DISCORD_WEBHOOK_URL w) = false.

(** X5: a message shorter than 1900 characters is delivered in a single
    webhook call whose content is the message followed by one newline;
    unless the message is blank, in which case nothing is posted at
    all. *)
Theorem send_short_message (message : str) (h : history) :
  length message < 1900 ->
  exists evs,
    send_to_discord w message h = (Ok tt, h ++ evs)
    /\ posts evs = if blank message then [] else [message ++ [NL]].
Proof.
  intros Hlen. destruct (send_run w message h webhook_set) as (evs & E & Hp).
  exists evs. split; [exact E|]. rewrite Hp. unfold send_chunks.
  rewrite chunk_loop_fits.
  - cbn [app]. rewrite render_split_nl, truthy_strip, blank_app.
    change (blank [NL]) with true. rewrite andb_true_r.
    now destruct (blank message).
  - rewrite render_split_nl, length_app. cbn [length]. unfold max_len. lia.
Qed.

(** X6: the delivered chunks, put end to end, are the message followed
    by one newline, except for a blank tail that is not delivered; when
    the last line of the message is not blank nothing is missing. *)
Theorem send_concat (message : str) (h : history) :
  exists evs dropped,
    send_to_discord w message h = (Ok tt, h ++ evs)
    /\ concat (posts evs) ++ dropped = message ++ [NL]
    /\ blank dropped = true
    /\ (blank (last (split_nl message) []) = false -> dropped = []).
Proof.
  destruct (send_run w message h webhook_set) as (evs & E & Hp).
  exists evs. rewrite Hp. unfold send_chunks. clear Hp.
  destruct (chunk_loop_message message) as (gs & gl & Ec & Hc).
  rewrite Ec. set (tl := gl ++ [last (split_nl message) []]) in *.
  assert (Hall : render (concat gs) ++ render tl = message ++ [NL])
    by (rewrite <- render_app, Hc; apply render_split_nl).
  rewrite truthy_strip. destruct (blank (render tl)) eqn:Hb; cbn [negb].
  - exists (render tl). rewrite app_nil_r, concat_map_render.
    repeat split; try assumption.
    intros Hlast. rewrite blank_render in Hb. unfold tl in Hb.
    rewrite forallb_app in Hb. cbn [forallb] in Hb.
    rewrite Hlast, andb_false_r in Hb. discriminate.
  - exists []. rewrite app_nil_r, concat_app, concat_map_render. cbn [concat].
    rewrite app_nil_r. repeat split; assumption.
Qed.

(** X7: only the first webhook call can carry an empty content, and it
    does so only when the first line of the message has 1900 characters
    or more: every later chunk is non-empty, and with a shorter first
    line every chunk is. *)
Theorem send_empty_chunk_only_first (message : str) (h : history) :
  exists evs,
    send_to_discord w message h = (Ok tt, h ++ evs)
    /\ Forall (fun c => c <> []) (tl (posts evs))
    /\ (length (hd [] (split_nl message)) < 1900 ->
        Forall (fun c => c <> []) (posts evs)).
Proof.
  destruct (send_run w message h webhook_set) as (evs & E & Hp).
  exists evs. split; [exact E|]. rewrite Hp. unfold send_chunks. clear E Hp.
  destruct (split_nl message) as [| line r] eqn:Es;
    [now apply split_nl_nonempty in Es|].
  cbn [hd chunk_loop].
  destruct (Nat.ltb_spec max_len (length (@nil char) + length line + 1)) as [Hlt | Hle].
  - destruct (chunk_loop_nonempty r (line ++ [NL])) as [Hf Hs]; [now destruct line|].
    destruct (chunk_loop r (line ++ [NL])) as [fl b]. cbn [fst snd] in *.
    assert (Hrest : Forall (fun c : str => c <> []) (fl ++ (if truthy (strip b) then [b] else []))).
    { apply Forall_app. split; [exact Hf|]. destruct (truthy _); repeat constructor.
      exact Hs. }
    split; [exact Hrest|]. unfold max_len in Hlt. cbn [length] in Hlt. lia.
  - destruct (chunk_loop_nonempty r ([] ++ line ++ [NL])) as [Hf Hs]; [now destruct line|].
    destruct (chunk_loop r ([] ++ line ++ [NL])) as [fl b]. cbn [fst snd] in *.
    assert (Hall : Forall (fun c : str => c <> []) (fl ++ (if truthy (strip b) then [b] else []))).
    { apply Forall_app. split; [exact Hf|]. destruct (truthy _); repeat constructor.
      exact Hs. }
    split; [| intros _; exact Hall].
    destruct (fl ++ _); [constructor | now inversion Hall].
Qed.

(** X8: a delivered chunk is longer than 1900 characters only if it is a
    single line of the message with its newline: every chunk is within
    the limit or is exactly one line. *)
Theorem send_oversize_single_line (message : str) (h : history) :
  exists evs,
    send_to_discord w message h = (Ok tt, h ++ evs)
    /\ Forall (fun c => length c <= 1900
                        \/ exists l, In l (split_nl message) /\ c = l ++ [NL])
         (posts evs).
Proof.
  destruct (send_run w message h webhook_set) as (evs & E & Hp).
  exists evs. split; [exact E|]. rewrite Hp. unfold send_chunks. clear E Hp.
  destruct (chunk_loop_oversize (split_nl message) (split_nl message) [])
    as [Hf Hs]; [apply incl_refl | left; cbn; lia |].
  destruct (chunk_loop (split_nl message) []) as [fl b]. cbn [fst snd] in *.
  apply Forall_app. split; [exact Hf|].
  destruct (truthy _); [constructor; [exact Hs | constructor] | constructor].
Qed.

End MoreDelivery.

Lemma send_short_message_witness :
  exists evs,
    send_to_discord (Samples.world_ok []) (u "hello") [] = (Ok tt, [] ++ evs)
    /\ posts evs = if blank (u "hello") then [] else [u "hello" ++ [NL]].
Proof.
  apply (send_short_message (Samples.world_ok []) eq_refl (u "hello") []).
  apply Nat.ltb_lt. vm_compute. reflexivity.
Defined.

Lemma send_concat_witness :
  exists evs dropped,
    send_to_discord (Samples.world_ok []) Samples.long_message [] = (Ok tt, [] ++ evs)
    /\ concat (posts evs) ++ dropped = Samples.long_message ++ [NL]
    /\ blank dropped = true
    /\ (blank (last (split_nl Samples.long_message) []) = false -> dropped = []).
Proof.
  exact (send_concat (Samples.world_ok []) eq_refl Samples.long_message []).
Defined.

Lemma send_empty_chunk_only_first_witness :
  exists evs,
    send_to_discord (Samples.world_ok []) Samples.long_message [] = (Ok tt, [] ++ evs)
    /\ Forall (fun c => c <> []) (tl (posts evs))
    /\ (length (hd [] (split_nl Samples.long_message)) < 1900 ->
        Forall (fun c => c <> []) (posts evs)).
Proof.
  exact (send_empty_chunk_only_first (Samples.world_ok []) eq_refl
           Samples.long_message []).
Defined.

Lemma send_oversize_single_line_witness :
  exists evs,
    send_to_discord (Samples.world_ok []) Samples.long_word [] = (Ok tt, [] ++ evs)
    /\ Forall (fun c => length c <= 1900
                        \/ exists l, In l (split_nl Samples.long_word) /\ c = l ++ [NL])
         (posts evs).
Proof.
  exact (send_oversize_single_line (Samples.world_ok []) eq_refl Samples.long_word []).
Defined.

(** *** The notifier's events *)


Section DeliveryTrace.

Variable w : world.





End DeliveryTrace.


(** ** More on the orchestrator *)





Section Orchestrator.

Variable w : world.

(** X10: with the news-API key unset, [main] prints its start line and
    then raises the RuntimeError that names NEWS_API_KEY: no request of
    any kind is made, even when the webhook is configured. *)
Theorem main_missing_key (h : history) :
  unset (NEWS_API_KEY w) = true ->
  exists msg,
    main w h = (Raise (mkExn RuntimeError msg), h ++ [start_line])
    /\ contains (u "NEWS_API_KEY") msg = true.
Proof.
  intros Hk. unfold main. unfold bind at 1, print at 1, emit at 1.
  unfold bind at 1, fetch_korean_stock_news. rewrite Hk. unfold raise.
  eexists. split; [reflexivity|]. vm_compute. reflexivity.
Qed.

Variable h : history.
Hypothesis key_set : unset (NEWS_API_KEY w) = false.

(** X11: when the news endpoint answers with a status from 400 to 599,
    [main] raises the HTTPError after its start line and the GET; it
    translates nothing, posts nothing and prints nothing more. *)
Theorem main_http_error :
  http_ok (news_reply w TOP_N (h ++ [start_line])) = false ->
  main w h =
    (Raise (mkExn HTTPError (g_error_text (news_reply w TOP_N (h ++ [start_line])))),
     h ++ [start_line; get_event w TOP_N]).
Proof.
  intros Hbad. unfold main. unfold bind at 1, print at 1, emit at 1.
  unfold bind at 1. fold start_line.
  pose proof (fetch_run w TOP_N (h ++ [start_line]) key_set) as E. cbv zeta in E.
  rewrite Hbad in E. rewrite E, <- app_assoc. reflexivity.
Qed.

Let resp := news_reply w TOP_N (h ++ [start_line]).
Let ko_news := kept (articles_of resp).


Hypothesis status_ok : http_ok resp = true.
Hypothesis some_news : ko_news <> [].




End Orchestrator.

Lemma main_missing_key_witness :
  exists msg,
    main Cases.world_no_key [] = (Raise (mkExn RuntimeError msg), [] ++ [start_line])
    /\ contains (u "NEWS_API_KEY") msg = true.
Proof. apply (main_missing_key Cases.world_no_key []). reflexivity. Defined.

Lemma main_http_error_witness :
  main Cases.world_api_down [] =
    (Raise (mkExn HTTPError (u "500 Server Error")),
     [] ++ [start_line; get_event Cases.world_api_down TOP_N]).
Proof. apply (main_http_error Cases.world_api_down []); reflexivity. Defined.



Example main_sample_posts :
  posts (snd (main (Samples.world_ok [Samples.raw1; Samples.raw_blank]) []))
  = [build_message [Samples.art1]
       [mkArticle (u "en:코스피 상승") (u "en:코스피가 2% 올랐다") (u "http://x/1")]
       [mkArticle (u "chinese (simplified):코스피 상승")
                  (u "chinese (simplified):코스피가 2% 올랐다") (u "http://x/1")]
     ++ [NL]].
Proof. vm_compute. reflexivity. Qed.

(** ** More on the message builder *)

Lemma no_newline_check (s : str) :
  forallb (fun c => negb (c =? NL)%N) s = true -> no_newline s.
Proof.
  intros Hb Hin. rewrite forallb_forall in Hb. specialize (Hb NL Hin).
  rewrite N.eqb_refl in Hb. discriminate.
Qed.

Lemma no_newline_app (s t : str) :
  no_newline s -> no_newline t -> no_newline (s ++ t).
Proof. unfold no_newline. intros Hs Ht H. apply in_app_or in H. tauto. Qed.

Lemma replace_nl_sp_no_newline (s : str) : no_newline (replace_nl_sp s).
Proof.
  unfold no_newline, replace_nl_sp. intros H. apply in_map_iff in H.
  destruct H as (c & Hc & _). destruct (N.eqb_spec c NL); [discriminate | congruence].
Qed.

Lemma replace_nl_sp_blank (s : str) : blank (replace_nl_sp s) = blank s.
Proof.
  unfold blank, replace_nl_sp. induction s as [| c r IH]; [reflexivity|].
  cbn [map forallb]. rewrite IH. destruct (N.eqb_spec c NL) as [-> | _]; reflexivity.
Qed.

(** X14: the text of a summary line is on one line and has no whitespace
    at either end: the newlines of the description have become spaces
    before the ends were stripped. *)
Theorem summary_text_single_line (n : article) :
  no_newline (summary_text n) /\ stripped (summary_text n).
Proof.
  unfold summary_text. split; [| apply strip_stripped].
  intros H. apply strip_incl in H. now apply replace_nl_sp_no_newline in H.
Qed.

(** X15: a description that is non-empty but blank (spaces, newlines)
    still gets its summary line, and that line is the bare label with
    nothing after it. *)
Theorem blank_description_placeholder (i : nat) (n : article) :
  description n <> [] ->
  blank (description n) = true ->
  In (u "   - 요약: ") (ko_body [] (i, n))
  /\ In (u "   - Summary: ") (tr_body (u "   - Summary: ") [] (i, n))
  /\ In (u "   - 摘要: ") (tr_body (u "   - 摘要: ") [] (i, n)).
Proof.
  intros Hne Hb.
  assert (Ht : truthy (description n) = true) by (now destruct (description n)).
  assert (Hs : summary_text n = []).
  { unfold summary_text. apply strip_nil_iff. now rewrite replace_nl_sp_blank. }
  unfold ko_body, tr_body. rewrite Ht, Hs, !app_nil_r. cbn [app].
  repeat split; [destruct (truthy (url n)) | |]; cbn [app In]; tauto.
Qed.

Lemma blank_description_placeholder_witness :
  In (u "   - 요약: ") (ko_body [] (1, Cases.art_blank_desc))
  /\ In (u "   - Summary: ") (tr_body (u "   - Summary: ") [] (1, Cases.art_blank_desc))
  /\ In (u "   - 摘要: ") (tr_body (u "   - 摘要: ") [] (1, Cases.art_blank_desc)).
Proof.
  apply (blank_description_placeholder 1 Cases.art_blank_desc);
    [discriminate | reflexivity].
Defined.

Lemma enumerate_cons {A} (start : nat) (a : A) (l : list A) :
  enumerate start (a :: l) = (start, a) :: enumerate (S start) l.
Proof. reflexivity. Qed.

(** [enumerate] pairs the element at position [k] with [start + k]. *)
Lemma enumerate_nth {A} (l : list A) (start k : nat) (x : A) :
  nth_error l k = Some x -> nth_error (enumerate start l) k = Some (start + k, x).
Proof.
  revert start k. induction l as [| a l IH]; intros start [| k] H; try discriminate.
  - cbn in H. injection H as ->. rewrite enumerate_cons, Nat.add_0_r. reflexivity.
  - rewrite enumerate_cons. cbn [nth_error] in *. rewrite (IH (S start) k H).
    do 2 f_equal. lia.
Qed.

Lemma flat_map_nth {A B} (f : A -> list B) (l : list A) (k : nat) (x : A) :
  nth_error l k = Some x ->
  exists before after, flat_map f l = before ++ f x ++ after.
Proof.
  intros H. apply nth_error_split in H. destruct H as (l1 & l2 & -> & _).
  exists (flat_map f l1), (flat_map f l2). rewrite flat_map_app. reflexivity.
Qed.

Lemma section_entry (body : list str -> nat * article -> list str)
  (l : list article) (k : nat) (n : article) :
  nth_error l k = Some n ->
  exists before after,
    flat_map (body []) (enumerate 1 l) = before ++ body [] (S k, n) ++ after.
Proof.
  intros H. apply (enumerate_nth l 1) in H. exact (flat_map_nth (body []) _ k _ H).
Qed.

(** X16: numbering restarts at 1 in each section: the article at
    position [k] (counted from 0) of a list appears in the digest as the
    block its section's loop body makes for number [k + 1]. *)
Theorem digest_numbering (ko_news en_news zh_news : list article) (k : nat) (n : article) :
  (nth_error ko_news k = Some n ->
   exists before after,
     build_lines ko_news en_news zh_news = before ++ ko_body [] (S k, n) ++ after)
  /\ (nth_error en_news k = Some n ->
      exists before after,
        build_lines ko_news en_news zh_news =
          before ++ tr_body (u "   - Summary: ") [] (S k, n) ++ after)
  /\ (nth_error zh_news k = Some n ->
      exists before after,
        build_lines ko_news en_news zh_news =
          before ++ tr_body (u "   - 摘要: ") [] (S k, n) ++ after).
Proof.
  rewrite build_lines_sections.
  set (head := [u "**오늘의 한국 주식 TOP 5 뉴스**" ++ [NL]; u "=== 🇰🇷 한국어 ==="]).
  set (ko_sec := flat_map (ko_body []) (enumerate 1 ko_news)).
  set (en_sec := flat_map (tr_body (u "   - Summary: ") []) (enumerate 1 en_news)).
  set (zh_sec := flat_map (tr_body (u "   - 摘要: ") []) (enumerate 1 zh_news)).
  set (en_head := [u "=== 🇺🇸 English ==="]).
  set (zh_head := [u "=== 🇨🇳 中文(简体) ==="]).
  split; [| split]; intros H.
  - destruct (section_entry ko_body ko_news k n H) as (b & a & E).
    fold ko_sec in E. rewrite E.
    exists (head ++ b), (a ++ en_head ++ en_sec ++ zh_head ++ zh_sec).
    now rewrite <- !app_assoc.
  - destruct (section_entry (tr_body (u "   - Summary: ")) en_news k n H)
      as (b & a & E).
    fold en_sec in E. rewrite E.
    exists (head ++ ko_sec ++ en_head ++ b), (a ++ zh_head ++ zh_sec).
    now rewrite <- !app_assoc.
  - destruct (section_entry (tr_body (u "   - 摘要: ")) zh_news k n H)
      as (b & a & E).
    fold zh_sec in E. rewrite E.
    exists (head ++ ko_sec ++ en_head ++ en_sec ++ zh_head ++ b), a.
    now rewrite <- !app_assoc.
Qed.

Lemma digest_numbering_witness :
  (exists before after,
     build_lines [Samples.art_bare; Samples.art1] [] [Samples.art1] =
       before ++ ko_body [] (2, Samples.art1) ++ after)
  /\ (exists before after,
        build_lines [Samples.art_bare; Samples.art1] [] [Samples.art1] =
          before ++ tr_body (u "   - 摘要: ") [] (1, Samples.art1) ++ after).
Proof.
  split.
  - apply (digest_numbering [Samples.art_bare; Samples.art1] [] [Samples.art1]
             1 Samples.art1). reflexivity.
  - apply (digest_numbering [Samples.art_bare; Samples.art1] [] [Samples.art1]
             0 Samples.art1). reflexivity.
Defined.

(** *** From the builder's lines to the notifier's lines *)

Lemma split_nl_app_nl (a b : str) :
  split_nl (a ++ NL :: b) = split_nl a ++ split_nl b.
Proof.
  induction a as [| c a IH]; cbn [app split_nl].
  - rewrite N.eqb_refl. reflexivity.
  - rewrite IH. destruct (c =? NL)%N; [reflexivity|].
    destruct (split_nl a) as [| l ls] eqn:E; [now apply split_nl_nonempty in E|].
    reflexivity.
Qed.

(** Splitting a joined list of lines splits each of them. *)
Lemma split_join (lines : list str) :
  lines <> [] -> split_nl (join_nl lines) = flat_map split_nl lines.
Proof.
  induction lines as [| l [| l' r] IH]; intros Hne; [congruence | |].
  - cbn. now rewrite app_nil_r.
  - change (join_nl (l :: l' :: r)) with (l ++ NL :: join_nl (l' :: r)).
    rewrite split_nl_app_nl, IH by discriminate. reflexivity.
Qed.

Lemma split_nl_single (l : str) : no_newline l -> split_nl l = [l].
Proof.
  unfold no_newline. induction l as [| c r IH]; intros H; [reflexivity|].
  cbn [split_nl]. destruct (N.eqb_spec c NL) as [-> | _]; [exfalso; apply H; now left|].
  rewrite IH; [reflexivity|]. intros Hin. apply H. now right.
Qed.

Lemma flat_map_split_single (lines : list str) :
  Forall no_newline lines -> flat_map split_nl lines = lines.
Proof.
  induction 1 as [| l lines Hl _ IH]; [reflexivity|].
  cbn [flat_map]. now rewrite split_nl_single, IH.
Qed.

Lemma uint_digits (d : Decimal.uint) :
  Forall (fun c => (48 <= c <= 57)%N)
    (map N_of_ascii (list_ascii_of_string (NilEmpty.string_of_uint d))).
Proof.
  induction d; cbn; constructor; try assumption; lia.
Qed.

Lemma str_of_nat_no_newline (i : nat) : no_newline (str_of_nat i).
Proof.
  unfold no_newline, str_of_nat. intros H.
  pose proof (uint_digits (Nat.to_uint i)) as Hd.
  rewrite Forall_forall in Hd. specialize (Hd NL H). unfold NL in Hd. lia.
Qed.

Lemma title_line_no_newline (i : nat) (n : article) :
  no_newline (title n) -> no_newline (str_of_nat i ++ u ". " ++ title n).
Proof.
  intros Ht. apply no_newline_app; [apply str_of_nat_no_newline|].
  apply no_newline_app; [apply no_newline_check; reflexivity | exact Ht].
Qed.

Lemma summary_line_no_newline (label : str) (n : article) :
  no_newline label -> no_newline (label ++ summary_text n).
Proof.
  intros Hl. apply no_newline_app; [exact Hl|].
  unfold summary_text. intros H. apply strip_incl in H.
  now apply replace_nl_sp_no_newline in H.
Qed.

Lemma ko_body_no_newline (e : nat * article) :
  no_newline (title (snd e)) -> no_newline (url (snd e)) ->
  Forall no_newline (ko_body [] e).
Proof.
  destruct e as [i n]. cbn [snd]. intros Ht Hu. unfold ko_body.
  assert (Hs : no_newline (u "   - 요약: " ++ summary_text n))
    by (apply summary_line_no_newline, no_newline_check; reflexivity).
  assert (Hl : no_newline (u "   링크: " ++ url n))
    by (apply no_newline_app; [apply no_newline_check; reflexivity | exact Hu]).
  pose proof (title_line_no_newline i n Ht) as Hn.
  assert (He : no_newline []) by (intros []).
  destruct (truthy (description n)), (truthy (url n)); cbn [app];
    repeat (constructor; [assumption|]); constructor.
Qed.

Lemma tr_body_no_newline (label : str) (e : nat * article) :
  no_newline label -> no_newline (title (snd e)) ->
  Forall no_newline (tr_body label [] e).
Proof.
  destruct e as [i n]. cbn [snd]. intros Hlab Ht. unfold tr_body.
  pose proof (summary_line_no_newline label n Hlab) as Hs.
  pose proof (title_line_no_newline i n Ht) as Hn.
  assert (He : no_newline []) by (intros []).
  destruct (truthy (description n)); cbn [app];
    repeat (constructor; [assumption|]); constructor.
Qed.

Lemma section_no_newline (body : nat * article -> list str) (P : article -> Prop)
  (l : list article) (start : nat) :
  (forall e, P (snd e) -> Forall no_newline (body e)) ->
  Forall P l ->
  Forall no_newline (flat_map body (enumerate start l)).
Proof.
  intros Hbody Hl. apply Forall_flat_map, Forall_forall. intros [i n] Hin.
  apply Hbody. cbn [snd]. unfold enumerate in Hin. apply in_combine_r in Hin.
  rewrite Forall_forall in Hl. now apply Hl.
Qed.

Lemma build_message_lines (ko_news en_news zh_news : list article) :
  Forall (fun n => no_newline (title n) /\ no_newline (url n)) ko_news ->
  Forall (fun n => no_newline (title n)) (en_news ++ zh_news) ->
  split_nl (build_message ko_news en_news zh_news) =
    u "**오늘의 한국 주식 TOP 5 뉴스**" :: [] ::
    tl (build_lines ko_news en_news zh_news).
Proof.
  intros Hko Htr. apply Forall_app in Htr. destruct Htr as [Hen Hzh].
  unfold build_message. rewrite build_lines_sections.
  cbn [app tl]. rewrite split_join by discriminate. cbn [flat_map].
  rewrite flat_map_split_single; [reflexivity|].
  apply Forall_app. split.
  { apply (section_no_newline (ko_body [])
             (fun n => no_newline (title n) /\ no_newline (url n))); [| exact Hko].
    intros e [Ht Hu]. now apply ko_body_no_newline. }
  constructor; [apply no_newline_check; reflexivity|].
  apply Forall_app. split.
  { apply (section_no_newline (tr_body (u "   - Summary: ") [])
             (fun n => no_newline (title n))); [| exact Hen].
    intros e Ht. apply tr_body_no_newline;
      [apply no_newline_check; reflexivity | exact Ht]. }
  constructor; [apply no_newline_check; reflexivity|].
  apply (section_no_newline (tr_body (u "   - 摘要: ") [])
           (fun n => no_newline (title n))); [| exact Hzh].
  intros e Ht. apply tr_body_no_newline;
    [apply no_newline_check; reflexivity | exact Ht].
Qed.

(** X17: when no title and no Korean url contains a newline, the lines
    [send_to_discord] cuts the digest into are the lines the builder
    appended, one for one and in order, the only difference being that
    the title line, which ends in a newline, gives the title and one
    empty line. *)
Theorem digest_lines_roundtrip (ko_news en_news zh_news : list article) :
  Forall (fun n => no_newline (title n) /\ no_newline (url n)) ko_news ->
  Forall (fun n => no_newline (title n)) (en_news ++ zh_news) ->
  split_nl (build_message ko_news en_news zh_news) =
    u "**오늘의 한국 주식 TOP 5 뉴스**" :: [] ::
    tl (build_lines ko_news en_news zh_news).
Proof. apply build_message_lines. Qed.

Lemma digest_lines_roundtrip_witness :
  split_nl (build_message [Samples.art1] [Samples.art_bare] []) =
    u "**오늘의 한국 주식 TOP 5 뉴스**" :: [] ::
    tl (build_lines [Samples.art1] [Samples.art_bare] []).
Proof.
  apply (digest_lines_roundtrip [Samples.art1] [Samples.art_bare] []).
  - repeat constructor; apply no_newline_check; reflexivity.
  - repeat constructor; apply no_newline_check; reflexivity.
Defined.

(** *** Link lines of the digest *)

Lemma startswith_app (p s : str) : startswith p (p ++ s) = true.
Proof.
  induction p as [| c p IH]; [reflexivity|]. cbn. now rewrite N.eqb_refl.
Qed.

Lemma filter_flat_map {A B} (P : B -> bool) (f : A -> list B) (l : list A) :
  filter P (flat_map f l) = flat_map (fun x => filter P (f x)) l.
Proof.
  induction l as [| x l IH]; [reflexivity|].
  cbn [flat_map]. now rewrite filter_app, IH.
Qed.

Lemma filter_none {A} (P : A -> bool) (l : list A) :
  Forall (fun x => P x = false) l -> filter P l = [].
Proof.
  induction 1 as [| x l Hx _ IH]; [reflexivity|]. cbn. now rewrite Hx.
Qed.

(** The link lines one Korean entry contributes. *)
Lemma ko_body_links (e : nat * article) :
  filter is_link_line (ko_body [] e) =
    if truthy (url (snd e)) then [u "   링크: " ++ url (snd e)] else [].
Proof.
  destruct e as [i n]. cbn [snd]. unfold ko_body.
  assert (Ht : is_link_line (str_of_nat i ++ u ". " ++ title n) = false)
    by apply (title_line_not_indented (tl (u "   링크: "))).
  assert (Hs : is_link_line (u "   - 요약: " ++ summary_text n) = false)
    by reflexivity.
  assert (Hl : is_link_line (u "   링크: " ++ url n) = true)
    by apply startswith_app.
  destruct (truthy (description n)), (truthy (url n)); cbn [app filter];
    rewrite Ht, ?Hs, ?Hl; reflexivity.
Qed.

Lemma ko_section_links (l : list article) (start : nat) :
  flat_map (fun e => filter is_link_line (ko_body [] e)) (enumerate start l) =
    map (fun n => u "   링크: " ++ url n) (filter (fun n => truthy (url n)) l).
Proof.
  revert start. induction l as [| n l IH]; intros start; [reflexivity|].
  rewrite enumerate_cons. cbn [flat_map filter]. rewrite IH, ko_body_links. cbn [snd].
  destruct (truthy (url n)); reflexivity.
Qed.

(** X18: when no title and no Korean url contains a newline, the link
    lines among the lines of the digest are exactly the urls of the
    Korean articles that have one, in order, each after its label: one
    per such article, and none from the English or the Chinese list. *)
Theorem digest_link_lines (ko_news en_news zh_news : list article) :
  Forall (fun n => no_newline (title n) /\ no_newline (url n)) ko_news ->
  Forall (fun n => no_newline (title n)) (en_news ++ zh_news) ->
  filter is_link_line (split_nl (build_message ko_news en_news zh_news)) =
    map (fun n => u "   링크: " ++ url n) (filter (fun n => truthy (url n)) ko_news).
Proof.
  intros Hko Htr. rewrite build_message_lines, build_lines_sections by assumption.
  cbn [app tl].
  change (filter is_link_line (?a :: [] :: ?b :: ?r)) with (filter is_link_line r).
  rewrite filter_app, filter_flat_map, ko_section_links.
  change (filter is_link_line (?a :: ?r)) with (filter is_link_line r).
  rewrite filter_app.
  change (filter is_link_line (?a :: ?r)) with (filter is_link_line r).
  rewrite !(filter_none is_link_line (flat_map (tr_body _ []) _)), app_nil_r;
    [reflexivity | |];
    apply tr_section_no_link; intros s; reflexivity.
Qed.

Lemma digest_link_lines_witness :
  filter is_link_line
    (split_nl (build_message [Samples.art1; Samples.art_bare] [Samples.art1] [])) =
    map (fun n => u "   링크: " ++ url n)
        (filter (fun n => truthy (url n)) [Samples.art1; Samples.art_bare]).
Proof.
  apply (digest_link_lines [Samples.art1; Samples.art_bare] [Samples.art1] []).
  - repeat constructor; apply no_newline_check; reflexivity.
  - repeat constructor; apply no_newline_check; reflexivity.
Defined.

Example digest_link_lines_sample :
  filter is_link_line
    (split_nl (build_message [Samples.art1; Samples.art_bare] [Samples.art1] []))
  = [u "   링크: http://x/1"].
Proof. vm_compute. reflexivity. Qed.
